(* ===== verification/_CoqProject ===== *)
-Q . S2P
Prelude.v
JsCore.v
NameEncoder.v
DateSexEncoder.v
CheckDigit.v
CityCode.v
CityApi.v
MainForm.v
