(* ===== verification/Prelude.v ===== *)
(** * Italian fiscal code calculator: a verification development

    The program is the Angular application
    [mistmay/italian-fiscal-code-calculator-angular].  Its only component
    with logic is [MainFormComponent]
    (src/src/app/views/main-form/main-form.component.ts), helped by the
    HTTP service [CityApiService] (src/src/app/api/city-api.service.ts),
    the validator [autoCompleteValidator]
    (src/src/app/validators/autocomplete-validator.ts) and the data types of
    src/src/app/models/city.ts and src/src/app/models/user.ts.  The
    component keeps [cityList] (pairs of a display name and a cadastral
    code), [options] (the display names offered by the autocomplete), the
    form holding the user's input, the observable [filteredOptions] of
    suggestions, and [fiscalCode] (the last computed code).

    ** The parts and how they interact
    - the lifecycle ([ngOnInit], lines 24-28): [apiRequest], then
      [formConstruction], then [matAutocompleteStart];
    - the data loader ([apiRequest], lines 30-44) and the service: the
      component subscribes to [getCityList()]; the callback subscribes to
      [getDitrictList()]; the inner callback joins every municipality with
      its province, appends the entry to [cityList] and its display name to
      [options];
    - the form ([formConstruction], lines 58-66, and
      [autoCompleteValidator]): the city control accepts a value only when
      it is one of [options]; the validator closes over the very array
      [this.options], so later appends by the loader are visible to it (the
      model reads the current [options] of the state: one shared store);
    - the autocomplete ([matAutocompleteStart], lines 46-51, and [_filter],
      lines 53-56): [startWith('')] emits once, then every change of the
      city control emits [_filter] of the new value against the current
      [options];
    - the name encoder ([nameExtractor], lines 76-131);
    - the date and sex encoder ([dateAndSexExtractor], lines 133-179, with
      [addZero], lines 181-187);
    - the city resolver ([cityCodeExtractor], lines 189-191);
    - the check character ([lastCode], [oddsCalculator], [evensCalculator],
      [lastCodeCalculator], lines 193-524);
    - the composer ([getForm], lines 68-74): concatenates surname skeleton,
      name skeleton, date token and city code, appends the check character
      and stores the result in [fiscalCode].

    ** Files, modules and what they prove
    - [Prelude] (this file): the scope [js_scope] with [⊕] for JavaScript
      string concatenation, the rewrite database [jsstr] and the tactic
      [js_norm], the database [fiscal], and shared lemmas on strings as
      character lists, [List.find] (first match), sums over lists
      ([zsum], [fold_left_add_zsum] for [forEach] accumulations), boolean
      injectivity checks, invariants of [rtc], and [mod] arithmetic.
    - [JsCore] (Module [Js]): the JavaScript built-ins the component calls,
      modelled from the ECMAScript specification (library code, not mapped
      to the sources): [trim], [toUpperCase], [toLowerCase], [split] on one
      character and [join('')] (proved equal to removing that character),
      [includes], [String(n)] on integers as a fuelled loop, the removed
      part of [splice]; and a reader of decimal numerals
      ([decimal_value]) with the lemma that [String(n)] is the numeral
      of [n].
    - [NameEncoder] (Module [NameEncoder]): [nameExtractor] with its
      normalisation and the two filters.  The abstract [skeleton] and the
      refinement theorem (C5), length three (C16), the given-name/surname
      asymmetry (C6), the origin of each character (C22), capitals for
      alphabetic names (C23), case independence (C24), and the consonant
      array admitting every character [trim] keeps that is neither the
      space nor a vowel, letter or not (C31: apostrophes, digits, a tab
      inside the name).
    - [DateSexEncoder] (Module [DateSexEncoder]): [Sex], the [Date]
      accessors, [year_part], [month_letter], [addZero],
      [dateAndSexExtractor].  Token layout (C7) and length (C17) on a
      four-digit year, a decoder and the round trip (C8), injectivity
      (C25), the short year field below 1000 (C26), and [addZero] as a
      decimal numeral of the number padded to exactly two digits (C30).
    - [CheckDigit] (Module [CheckDigit]): the two tables as the class
      [ConversionTable] with instances [odd_table] and [even_table] (values
      in 0..25, injective on capitals and on digits, checked by
      computation), the positional [weighted_sum] in a Section over any two
      tables, and the partition by [forEach] index.  Equivalence with the
      weighted sum (C3), one capital letter always (C15), detection of every
      single substitution within a class (C4), table structure (C21), and
      the undetected W/Y transposition (C27).
    - [CityCode] (Module [CityCode]): [City], [CityResponse],
      [DistrictResponse], the loader's inner callback,
      [cityCodeExtractor], [autoCompleteValidator], [_filter].  First match
      (C18), not found (C19), the callback (C20), validator implies
      resolvable (C13), the filter's bounds (C29), the display name with
      its "(undefined)" case (C32), and the validator's result in closed
      form, rejecting the empty string (C33).
    - [CityApi] (Module [CityApi]): the requests [getCityList()] and
      [getDitrictList()] issue, as values of [Request].
    - [MainForm] (Module [MainForm]): the component [State] (the fields of
      the class, the open subscription [pending] of [apiRequest] and the log
      [requests] of the HTTP requests issued), [constructed] (the field
      initialisers), [apiRequest], [onCities] and [onDistricts] (the two
      callbacks), [formConstruction], [matAutocompleteStart] and
      [filterEmission], [ngOnInit] and [init], [form_valid], [getForm]
      (with the [TypeError] of an empty date control as [None]), the events
      [CitiesResponse], [DistrictsResponse], [Input], [Submit] handled by
      [handle] (seen through the inductive view [handle_spec]), the
      relation [step] and [reachable].  The invariants of reachable states
      (C9: [options] are the display names of [cityList]; the request
      protocol; the suggestions bound), no valid form while loading (C12),
      loading completes (C11, liveness), a code can always be computed
      from [ngOnInit] (C10, liveness), a valid submission resolves the
      city (C1) and stores 16 characters (C2), an unknown city yields
      "undefined" and 21 characters (C14), idempotent submission (C28),
      and the suggestions left empty after loading, whatever the responses
      (C34).  The end-to-end example of the spec, RSSMRA80C12H501E, is
      checked by computation ([rossi_fiscal_code]).

    ** Representation choices, bounds and fuel
    JavaScript strings are [string] (8-bit characters, [ascii]); the model
    is exact on 7-bit input; the case mappings change only [a]..[z] /
    [A]..[Z] (JavaScript also maps Latin-1 letters, not covered).
    [split('')] is [String.list_ascii_of_string]; an array of
    one-character strings is a [list ascii]; an out-of-range array access
    used in a concatenation is the text "undefined".  Numbers are [Z]:
    every number of the code is a small integer (sums below 26 * 16), far
    below 2^53, so no rounding happens; [%] is [Z.rem], the truncated
    remainder of JavaScript.  [String(n)] is computed with fuel
    [Z.log2 n + 1], at least the number of decimal digits of [n]
    ([Js.digits_fuel_enough], [Js.digits_bound]), so the loop never runs
    out of fuel; [Js.digits_numeral] shows the result is the decimal
    numeral of [n].  [undefined] results are [None] in [option],
    and an exception thrown by [getForm] is [None] with the state
    unchanged.  The HTTP responses are events: a response is delivered only
    to the subscription waiting for it ([pending]), in the order the
    nested subscriptions impose.  [filteredOptions] is modelled by the list
    it last emitted, assuming the template subscribes to it before the
    responses arrive (the first rendering follows [ngOnInit]).

    ** Not modelled
    The HTTP transport of [CityApiService] (I/O: a request is logged in the
    state, its response is an event with arbitrary content); the HTML
    template, which is not in the sources and decides when [getForm] runs
    (the model lets [Submit] happen in any state, so the theorems on
    submission state the validity of the form as a hypothesis); Angular's
    form machinery, of which the model keeps the meaning of
    [Validators.required] and [Validators.minLength] on strings; the
    response fields the code never reads ([cap], [codice], [coordinate],
    [nomeStraniero], [prefisso] of a municipality, [nome] and [regione]
    of a province).

    ** Plan for the next sittings
    The JavaScript layer: [includes] against a reference substring search,
    [trim] against its specification, and the Latin-1 case mappings; the
    normalisation of names (idempotence, independence from leading and
    trailing white space); a decoder for the whole fiscal code and the round
    trip of [getForm] on valid input; the full set of adjacent
    transpositions the check character misses; failed HTTP requests (an
    error response leaves the table empty for ever). *)

From stdpp Require Import base list strings relations.
From Stdlib Require Import ZArith Ascii Lia.

(** ** Notation: JavaScript string concatenation *)

Declare Scope js_scope.
Delimit Scope js_scope with js.
Notation "s1 ⊕ s2" := (String.append s1 s2)
  (at level 60, right associativity) : js_scope.
Open Scope js_scope.

(** The one-character string holding [c]. *)
Definition str (c : ascii) : string := String c EmptyString.

(** ** Hint databases *)

Create Rewrite HintDb jsstr.
Create HintDb fiscal discriminated.

(** ** Strings as lists of characters *)

(** stdpp declares [String.append] [simpl never]; its two equations are
    used by rewriting instead. *)
Lemma string_append_nil_l (s : string) : EmptyString ⊕ s = s.
Proof. reflexivity. Qed.

Lemma string_append_cons (c : ascii) (s1 s2 : string) :
  String c s1 ⊕ s2 = String c (s1 ⊕ s2).
Proof. reflexivity. Qed.

Lemma string_length_append (s1 s2 : string) :
  String.length (s1 ⊕ s2) = String.length s1 + String.length s2.
Proof. induction s1; rewrite ?string_append_cons; simpl; auto. Qed.

Lemma string_length_str (c : ascii) : String.length (str c) = 1.
Proof. reflexivity. Qed.

Lemma string_append_nil_r (s : string) : s ⊕ EmptyString = s.
Proof. induction s; rewrite ?string_append_nil_l, ?string_append_cons; congruence. Qed.

Lemma string_append_assoc (s1 s2 s3 : string) : (s1 ⊕ s2) ⊕ s3 = s1 ⊕ s2 ⊕ s3.
Proof. induction s1; rewrite ?string_append_nil_l, ?string_append_cons; congruence. Qed.

Lemma list_ascii_of_string_append (s1 s2 : string) :
  String.list_ascii_of_string (s1 ⊕ s2) =
  String.list_ascii_of_string s1 ++ String.list_ascii_of_string s2.
Proof. induction s1; rewrite ?string_append_nil_l, ?string_append_cons; simpl; congruence. Qed.

Lemma list_ascii_of_string_str (c : ascii) :
  String.list_ascii_of_string (str c) = [c].
Proof. reflexivity. Qed.

Lemma length_list_ascii_of_string (s : string) :
  length (String.list_ascii_of_string s) = String.length s.
Proof. induction s; simpl; auto. Qed.

Lemma list_ascii_of_string_inj (s1 s2 : string) :
  String.list_ascii_of_string s1 = String.list_ascii_of_string s2 -> s1 = s2.
Proof.
  intros H. apply (f_equal String.string_of_list_ascii) in H.
  by rewrite !String.string_of_list_ascii_of_string in H.
Qed.

#[export] Hint Rewrite string_append_nil_l string_append_cons string_length_append string_length_str
  list_ascii_of_string_append list_ascii_of_string_str
  length_list_ascii_of_string : jsstr.

(** [js_norm] rewrites string lengths and character lists into list form. *)
Ltac js_norm := autorewrite with jsstr in *; simpl in *.

(** ** Lists *)

Lemma filter_length_split {A} (P : A -> bool) (l : list A) :
  length (List.filter P l) + length (List.filter (fun x => negb (P x)) l) = length l.
Proof. induction l as [|x l IH]; simpl; [done|]. destruct (P x); simpl; lia. Qed.

Lemma elem_of_rev_iff {A} (x : A) (l : list A) : x ∈ rev l <-> x ∈ l.
Proof. rewrite !list_elem_of_In, <- in_rev. done. Qed.

Lemma nth_error_In_some {A} (l : list A) (i : nat) :
  i < length l -> exists x, nth_error l i = Some x /\ In x l.
Proof.
  intros Hi. destruct (nth_error l i) as [x|] eqn:E.
  - exists x. split; [done|]. by eapply nth_error_In.
  - apply nth_error_None in E. lia.
Qed.

(** [Array.prototype.find] returns the first element satisfying [P]. *)
Lemma find_some_first {A} (P : A -> bool) (l : list A) (x : A) :
  List.find P l = Some x <->
  exists pre post, l = pre ++ x :: post /\ P x = true /\ Forall (fun y => P y = false) pre.
Proof.
  split.
  - induction l as [|y l IH]; simpl; [discriminate|]. destruct (P y) eqn:Hy.
    + intros [= <-]. exists [], l. auto.
    + intros (pre & post & -> & Hx & Hpre)%IH. exists (y :: pre), post. auto.
  - intros (pre & post & -> & Hx & Hpre). induction pre as [|y pre IH]; simpl; [by rewrite Hx|].
    apply Forall_cons in Hpre as [-> Hpre]. auto.
Qed.

Lemma find_none_forall {A} (P : A -> bool) (l : list A) :
  List.find P l = None <-> Forall (fun y => P y = false) l.
Proof.
  induction l as [|y l IH]; simpl; [split; auto|]. rewrite Forall_cons, <- IH.
  destruct (P y); split; try done; intros [? ?]; done.
Qed.

Lemma List_filter_sublist {A} (f : A -> bool) (l : list A) : List.filter f l `sublist_of` l.
Proof.
  induction l as [|x l IH]; simpl; [constructor|].
  destruct (f x); [by apply sublist_skip|by apply sublist_cons].
Qed.

(** Sum of [f] over a list, in [Z]. *)
Fixpoint zsum {A} (f : A -> Z) (l : list A) : Z :=
  match l with
  | [] => 0%Z
  | x :: r => (f x + zsum f r)%Z
  end.

Lemma zsum_app {A} (f : A -> Z) (l1 l2 : list A) :
  zsum f (l1 ++ l2) = (zsum f l1 + zsum f l2)%Z.
Proof. induction l1; simpl; lia. Qed.

(** A [forEach] that adds [f element] to an accumulator is a sum. *)
Lemma fold_left_add_zsum {A} (f : A -> Z) (l : list A) (a : Z) :
  fold_left (fun r e => (r + f e)%Z) l a = (a + zsum f l)%Z.
Proof. revert a. induction l as [|x l IH]; intros a; simpl; [lia|]. rewrite IH. lia. Qed.

(** Boolean check that [f] is injective on the elements of [l]. *)
Definition inj_on {A} (eqb : A -> A -> bool) (f : A -> Z) (l : list A) : bool :=
  forallb (fun x => forallb (fun y => negb (f x =? f y)%Z || eqb x y) l) l.

Lemma inj_on_spec {A} (eqb : A -> A -> bool) (f : A -> Z) (l : list A) :
  (forall x y, eqb x y = true -> x = y) ->
  inj_on eqb f l = true -> forall x y, In x l -> In y l -> f x = f y -> x = y.
Proof.
  intros Heqb Hinj x y Hx Hy Hf. unfold inj_on in Hinj.
  rewrite forallb_forall in Hinj. specialize (Hinj x Hx).
  rewrite forallb_forall in Hinj. specialize (Hinj y Hy).
  rewrite Hf, Z.eqb_refl in Hinj. simpl in Hinj. by apply Heqb.
Qed.

(** ** Relations *)

(** A property preserved by every step holds of every state reachable
    from a state that has it. *)
Lemma rtc_invariant {A} (R : relation A) (P : A -> Prop) :
  (forall x y, P x -> R x y -> P y) -> forall x y, P x -> rtc R x y -> P y.
Proof. intros Hstep x y Hx H. induction H; eauto. Qed.

(** ** Integers *)

Lemma Z_rem_nonneg_bound (a b : Z) : (0 <= a)%Z -> (0 < b)%Z -> (0 <= Z.rem a b < b)%Z.
Proof.
  intros Ha Hb. rewrite Z.rem_mod_nonneg by lia. apply Z.mod_pos_bound. lia.
Qed.

(** Two numbers closer than [m] with the same residue are equal. *)
Lemma Z_mod_eq_close (a b m : Z) :
  (0 < m)%Z -> (Z.abs (a - b) < m)%Z -> (a mod m = b mod m)%Z -> a = b.
Proof.
  intros Hm Hab Hmod. pose proof (Z.mod_pos_bound a m Hm). pose proof (Z.mod_pos_bound b m Hm).
  rewrite (Z.div_mod a m), (Z.div_mod b m) by lia. rewrite Hmod.
  enough (a / m = b / m)%Z as -> by lia.
  rewrite (Z.div_mod a m), (Z.div_mod b m) in Hab by lia. rewrite Hmod in Hab.
  destruct (Z.lt_total (a / m) (b / m)) as [Hlt|[Heq|Hgt]]; [nia|done|nia].
Qed.

#[export] Hint Resolve Z_rem_nonneg_bound : fiscal.
