(* ===== verification/JsCore.v ===== *)
(** JavaScript built-ins called by [MainFormComponent], modelled from the
    ECMAScript specification on 7-bit code units: trimming, case mapping,
    splitting on one character and joining with [''], substring search,
    the decimal printing [String(n)] of integers, the removed part of
    [splice], and [find]; and, on the specification side, the value of a
    decimal numeral, with the lemma that [String(n)] is the numeral of
    [n].  Each comes with the lemmas the components use. *)

From stdpp Require Import base list strings.
From Stdlib Require Import ZArith Ascii Lia.
From S2P Require Import Prelude.

Module Js.

(** ** [String.prototype.trim] *)

(** White space and line terminators of 8-bit code: TAB, LF, VT, FF, CR,
    SPACE and NO-BREAK SPACE. *)
Definition is_whitespace (c : ascii) : bool :=
  let n := nat_of_ascii c in
  ((9 <=? n) && (n <=? 13)) || (n =? 32) || (n =? 160).

Fixpoint trim_start (s : string) : string :=
  match s with
  | EmptyString => EmptyString
  | String c r => if is_whitespace c then trim_start r else s
  end.

Definition string_rev (s : string) : string :=
  String.string_of_list_ascii (rev (String.list_ascii_of_string s)).

Definition trim_end (s : string) : string := string_rev (trim_start (string_rev s)).

Definition trim (s : string) : string := trim_end (trim_start s).

(** ** [toUpperCase] and [toLowerCase] *)

Definition ascii_upper (c : ascii) : ascii :=
  let n := nat_of_ascii c in
  if (97 <=? n) && (n <=? 122) then ascii_of_nat (n - 32) else c.

Definition ascii_lower (c : ascii) : ascii :=
  let n := nat_of_ascii c in
  if (65 <=? n) && (n <=? 90) then ascii_of_nat (n + 32) else c.

Fixpoint string_map (f : ascii -> ascii) (s : string) : string :=
  match s with
  | EmptyString => EmptyString
  | String c r => String (f c) (string_map f r)
  end.

Definition toUpperCase (s : string) : string := string_map ascii_upper s.
Definition toLowerCase (s : string) : string := string_map ascii_lower s.

(** Character classes used in statements: ASCII letters and capitals. *)
Definition is_letter (c : ascii) : bool :=
  let n := nat_of_ascii c in ((65 <=? n) && (n <=? 90)) || ((97 <=? n) && (n <=? 122)).

Definition is_capital (c : ascii) : bool :=
  let n := nat_of_ascii c in (65 <=? n) && (n <=? 90).

Definition is_digit (c : ascii) : bool :=
  let n := nat_of_ascii c in (48 <=? n) && (n <=? 57).

(** ** [split(sep)] with a one-character separator, and [join('')] *)

Fixpoint split (sep : ascii) (s : string) : list string :=
  match s with
  | EmptyString => [EmptyString]
  | String c r =>
      let parts := split sep r in
      if ascii_dec c sep then EmptyString :: parts
      else match parts with
           | p :: ps => String c p :: ps
           | [] => [str c]
           end
  end.

Definition join_empty (parts : list string) : string := String.concat EmptyString parts.

(** The characters of [s] other than [c], in order. *)
Fixpoint remove_char (c : ascii) (s : string) : string :=
  match s with
  | EmptyString => EmptyString
  | String d r => if ascii_dec d c then remove_char c r else String d (remove_char c r)
  end.

(** ** [includes] *)

Definition includes (s sub : string) : bool :=
  match String.index 0 sub s with Some _ => true | None => false end.

(** ** [String(n)] on integers *)

Definition digit_char (d : Z) : ascii := ascii_of_nat (48 + Z.to_nat d).

Fixpoint digits_fuel (fuel : nat) (n : Z) : string :=
  match fuel with
  | O => EmptyString
  | S f =>
      if (n <? 10)%Z then str (digit_char n)
      else digits_fuel f (n / 10) ⊕ str (digit_char (n mod 10))
  end.

Definition digits (n : Z) : string := digits_fuel (S (Z.to_nat (Z.log2 n))) n.

Definition number_to_string (n : Z) : string :=
  if (n <? 0)%Z then "-" ⊕ digits (- n) else digits n.

(** Reading a decimal numeral back (specification side). *)
Definition digit_value (c : ascii) : Z := (Z.of_nat (nat_of_ascii c) - 48)%Z.

Definition decimal_value (s : string) : Z :=
  fold_left (fun acc c => acc * 10 + digit_value c)%Z (String.list_ascii_of_string s) 0%Z.

(** ** [Array.prototype.splice(start, count)]: the removed elements *)

Definition splice_removed {A} (start count : nat) (l : list A) : list A :=
  firstn count (skipn start l).

(** ** Lemmas *)

Lemma split_cons (c : ascii) (s : string) : exists p ps, split c s = p :: ps.
Proof.
  induction s as [|d s [p [ps IH]]]; simpl; [by eauto|].
  rewrite IH. destruct (ascii_dec d c); eauto.
Qed.

Lemma concat_empty_cons (x : string) (xs : list string) :
  String.concat EmptyString (x :: xs) = x ⊕ String.concat EmptyString xs.
Proof. destruct xs; simpl; [by rewrite string_append_nil_r|done]. Qed.

(** [split(c).join('')] removes every occurrence of [c]. *)
Lemma join_split (c : ascii) (s : string) :
  join_empty (split c s) = remove_char c s.
Proof.
  unfold join_empty. induction s as [|d s IH]; [done|]. cbn [split remove_char].
  destruct (split_cons c s) as (p & ps & E). rewrite E in IH |- *.
  rewrite concat_empty_cons in IH. destruct (ascii_dec d c).
  - by rewrite concat_empty_cons, string_append_nil_l, concat_empty_cons.
  - by rewrite concat_empty_cons, string_append_cons, IH.
Qed.

Lemma list_ascii_of_remove_char (c : ascii) (s : string) :
  String.list_ascii_of_string (remove_char c s) =
  List.filter (fun d => negb (bool_decide (d = c))) (String.list_ascii_of_string s).
Proof.
  induction s as [|d s IH]; [done|]. simpl.
  destruct (ascii_dec d c) as [->|Hne]; simpl.
  - by rewrite bool_decide_eq_true_2.
  - rewrite bool_decide_eq_false_2 by done. simpl. by rewrite IH.
Qed.

Lemma list_ascii_of_toUpperCase (s : string) :
  String.list_ascii_of_string (toUpperCase s) = map ascii_upper (String.list_ascii_of_string s).
Proof. unfold toUpperCase. induction s; simpl; congruence. Qed.

Lemma length_toLowerCase (s : string) : String.length (toLowerCase s) = String.length s.
Proof. unfold toLowerCase. induction s; simpl; auto. Qed.

(** Upper-casing is idempotent on characters. *)
Lemma ascii_upper_idem (c : ascii) : ascii_upper (ascii_upper c) = ascii_upper c.
Proof. destruct c as [[] [] [] [] [] [] [] []]; reflexivity. Qed.

(** Every string contains the empty string. *)
Lemma includes_empty (s : string) : includes s "" = true.
Proof. unfold includes. by destruct s. Qed.

(** *** Decimal printing *)

Lemma digits_fuel_enough (f g : nat) (n : Z) :
  (0 < f)%nat -> (f <= g)%nat -> (0 <= n < 10 ^ Z.of_nat f)%Z ->
  digits_fuel g n = digits_fuel f n.
Proof.
  revert g n. induction f as [|f IH]; intros g n Hf Hg Hn; [lia|].
  destruct g as [|g]; [lia|]. simpl.
  destruct (Z.ltb_spec n 10); [done|].
  destruct f as [|f]; [simpl in Hn; lia|].
  rewrite (IH g); [done|lia|lia|].
  rewrite Nat2Z.inj_succ, Z.pow_succ_r in Hn by lia.
  split; [apply Z.div_pos; lia|]. apply Z.div_lt_upper_bound; lia.
Qed.

Lemma digits_bound (n : Z) :
  (0 <= n)%Z -> (n < 10 ^ Z.of_nat (S (Z.to_nat (Z.log2 n))))%Z.
Proof.
  intros Hn. destruct (Z.eq_dec n 0) as [->|Hn0]; [reflexivity|].
  pose proof (Z.log2_spec n ltac:(lia)) as [_ Hlt].
  pose proof (Z.log2_nonneg n).
  rewrite Nat2Z.inj_succ, Z2Nat.id by lia.
  eapply Z.lt_le_trans; [exact Hlt|]. apply Z.pow_le_mono_l. lia.
Qed.

Lemma digits_small (n : Z) : (0 <= n < 10)%Z -> digits n = str (digit_char n).
Proof.
  intros Hn. unfold digits. simpl. by destruct (Z.ltb_spec n 10); [|lia].
Qed.

Lemma digits_step (n : Z) :
  (10 <= n)%Z -> digits n = digits (n / 10) ⊕ str (digit_char (n mod 10)).
Proof.
  intros Hn. unfold digits at 1. simpl.
  destruct (Z.ltb_spec n 10); [lia|]. f_equal. unfold digits.
  assert (Hd : (0 <= n / 10)%Z) by (apply Z.div_pos; lia).
  pose proof (Z.log2_spec n ltac:(lia)) as [Hlo Hhi].
  assert (H3 : (3 <= Z.log2 n)%Z).
  { apply Z.log2_le_pow2; lia. }
  transitivity (digits_fuel (Nat.max (S (Z.to_nat (Z.log2 (n / 10)))) (Z.to_nat (Z.log2 n))) (n / 10)).
  - symmetry. apply digits_fuel_enough; [lia|lia|].
    rewrite Z2Nat.id by lia. split; [done|].
    apply Z.div_lt_upper_bound; [lia|].
    assert (2 ^ Z.log2 n <= 10 ^ Z.log2 n)%Z by (apply Z.pow_le_mono_l; lia).
    rewrite Z.pow_succ_r in Hhi by lia. lia.
  - apply digits_fuel_enough; [lia|lia|]. split; [done|]. by apply digits_bound.
Qed.

Lemma number_to_string_nonneg (n : Z) : (0 <= n)%Z -> number_to_string n = digits n.
Proof. intros Hn. unfold number_to_string. by destruct (Z.ltb_spec n 0); [lia|]. Qed.

Lemma digit_value_digit_char (k : Z) : (0 <= k < 10)%Z -> digit_value (digit_char k) = k.
Proof.
  intros Hk. unfold digit_value, digit_char.
  rewrite nat_ascii_embedding by lia. lia.
Qed.

Lemma is_digit_digit_char (k : Z) : (0 <= k < 10)%Z -> is_digit (digit_char k) = true.
Proof.
  intros Hk. unfold is_digit, digit_char. rewrite nat_ascii_embedding by lia.
  apply andb_true_intro. split; apply Nat.leb_le; lia.
Qed.

Lemma decimal_value_snoc (s : string) (c : ascii) :
  decimal_value (s ⊕ str c) = (decimal_value s * 10 + digit_value c)%Z.
Proof.
  unfold decimal_value. by rewrite list_ascii_of_string_append, list_ascii_of_string_str, fold_left_app.
Qed.

(** [digits n] is the decimal numeral of [n]: digit characters whose
    value is [n]. *)
Lemma digits_numeral (n : Z) :
  (0 <= n)%Z -> decimal_value (digits n) = n /\
  Forall (fun c => is_digit c = true) (String.list_ascii_of_string (digits n)).
Proof.
  intros Hn. remember (Z.to_nat (Z.log2 n)) as k eqn:Hk.
  assert (Hb : (n < 10 ^ Z.of_nat (S k))%Z) by (subst; by apply digits_bound).
  clear Hk. revert n Hn Hb. induction k as [|k IH]; intros n Hn Hb;
    destruct (Z.ltb_spec n 10) as [Hs|Hs].
  1,3: rewrite digits_small by lia; split;
    [ unfold decimal_value; rewrite list_ascii_of_string_str; cbn [fold_left];
      rewrite digit_value_digit_char; lia
    | rewrite list_ascii_of_string_str; constructor; [by apply is_digit_digit_char|done] ].
  - simpl in Hb. lia.
  - rewrite digits_step by lia. rewrite decimal_value_snoc, list_ascii_of_string_append,
      list_ascii_of_string_str, Forall_app, digit_value_digit_char by (apply Z.mod_pos_bound; lia).
    destruct (IH (n / 10)%Z) as [IHv IHd].
    + apply Z.div_pos; lia.
    + rewrite Nat2Z.inj_succ, Z.pow_succ_r in Hb by lia. apply Z.div_lt_upper_bound; lia.
    + rewrite IHv. split; [rewrite (Z.div_mod n 10) at 3 by lia; rewrite Z.mul_comm; reflexivity|].
      split; [done|]. constructor; [apply is_digit_digit_char, Z.mod_pos_bound; lia|done].
Qed.

(** *** Trimming *)

Lemma list_ascii_of_string_rev (s : string) :
  String.list_ascii_of_string (string_rev s) = rev (String.list_ascii_of_string s).
Proof. unfold string_rev. apply String.list_ascii_of_string_of_list_ascii. Qed.

Lemma string_rev_involutive (s : string) : string_rev (string_rev s) = s.
Proof.
  apply list_ascii_of_string_inj. by rewrite !list_ascii_of_string_rev, rev_involutive.
Qed.

Lemma trim_start_incl (s : string) (c : ascii) :
  c ∈ String.list_ascii_of_string (trim_start s) -> c ∈ String.list_ascii_of_string s.
Proof.
  induction s as [|d s IH]; simpl; [done|].
  destruct (is_whitespace d); [|done]. intros H%IH. by apply elem_of_cons; right.
Qed.

Lemma trim_incl (s : string) (c : ascii) :
  c ∈ String.list_ascii_of_string (trim s) -> c ∈ String.list_ascii_of_string s.
Proof.
  unfold trim, trim_end. rewrite list_ascii_of_string_rev, elem_of_rev_iff.
  intros H%trim_start_incl. rewrite list_ascii_of_string_rev, elem_of_rev_iff in H.
  by apply trim_start_incl.
Qed.

(** Case mapping does not move white space. *)
(** [trim_start] removes only leading white space: a character preceded
    by (or being) a character that is not white space is kept. *)
Lemma trim_start_keep (p s : list ascii) (c : ascii) (t : string) :
  String.list_ascii_of_string t = p ++ c :: s ->
  Exists (fun d => is_whitespace d = false) (p ++ [c]) ->
  exists p', String.list_ascii_of_string (trim_start t) = p' ++ c :: s.
Proof.
  revert t. induction p as [|d p IH]; intros t Ht Hex.
  - destruct t as [|d r]; [discriminate|]. injection Ht as -> Hr.
    apply Exists_cons in Hex as [Hc|Hex]; [|by apply Exists_nil in Hex].
    exists []. cbn [trim_start]. rewrite Hc. simpl. by rewrite Hr.
  - destruct t as [|d' r]; [discriminate|]. injection Ht as -> Hr.
    cbn [trim_start]. destruct (is_whitespace d) eqn:Hd; [|exists (d :: p); simpl; by rewrite Hr].
    apply (IH r Hr). apply Exists_cons in Hex as [?|?]; [congruence|done].
Qed.

(** [trim] keeps every character with a character that is not white space
    at or before it and at or after it. *)
Lemma trim_keep (p s : list ascii) (c : ascii) (t : string) :
  String.list_ascii_of_string t = p ++ c :: s ->
  Exists (fun d => is_whitespace d = false) (p ++ [c]) ->
  Exists (fun d => is_whitespace d = false) (c :: s) ->
  c ∈ String.list_ascii_of_string (trim t).
Proof.
  intros Ht Hp Hs. destruct (trim_start_keep p s c t Ht Hp) as [p' Hp'].
  unfold trim, trim_end. rewrite list_ascii_of_string_rev.
  destruct (trim_start_keep (rev s) (rev p') c (string_rev (trim_start t))) as [q Hq].
  - rewrite list_ascii_of_string_rev, Hp', rev_app_distr. cbn [rev]. by rewrite <- app_assoc.
  - apply Exists_app. apply Exists_cons in Hs as [Hc|Hs].
    + right. by constructor.
    + left. apply Exists_exists. apply Exists_exists in Hs as (x & Hx & Hw).
      exists x. split; [by apply elem_of_rev_iff|done].
  - rewrite Hq, rev_app_distr. cbn [rev]. rewrite <- app_assoc. apply elem_of_app. right. cbn [app]. apply elem_of_cons. by left.
Qed.

Lemma is_whitespace_upper (c : ascii) : is_whitespace (ascii_upper c) = is_whitespace c.
Proof. destruct c as [[] [] [] [] [] [] [] []]; reflexivity. Qed.

Lemma trim_start_toUpperCase (s : string) :
  trim_start (toUpperCase s) = toUpperCase (trim_start s).
Proof.
  unfold toUpperCase. induction s as [|d s IH]; simpl; [done|].
  rewrite is_whitespace_upper. by destruct (is_whitespace d).
Qed.

Lemma string_rev_toUpperCase (s : string) :
  string_rev (toUpperCase s) = toUpperCase (string_rev s).
Proof.
  apply list_ascii_of_string_inj.
  by rewrite list_ascii_of_string_rev, !list_ascii_of_toUpperCase,
    list_ascii_of_string_rev, map_rev.
Qed.

Lemma trim_toUpperCase (s : string) : trim (toUpperCase s) = toUpperCase (trim s).
Proof.
  unfold trim, trim_end.
  by rewrite trim_start_toUpperCase, string_rev_toUpperCase, trim_start_toUpperCase,
    string_rev_toUpperCase.
Qed.

Lemma ascii_upper_letter (c : ascii) : is_letter c = true -> is_capital (ascii_upper c) = true.
Proof. destruct c as [[] [] [] [] [] [] [] []]; intros H; (discriminate || reflexivity). Qed.

Lemma toUpperCase_idem (s : string) : toUpperCase (toUpperCase s) = toUpperCase s.
Proof.
  apply list_ascii_of_string_inj. rewrite !list_ascii_of_toUpperCase, map_map.
  apply map_ext. apply ascii_upper_idem.
Qed.

End Js.
