(* ===== verification/NameEncoder.v ===== *)
(** The name encoder: [MainFormComponent.nameExtractor]
    (src/src/app/views/main-form/main-form.component.ts, lines 76-131).
    The name is trimmed, upper-cased, stripped of spaces and split into
    characters; the characters other than the five vowels form the array
    [consonants], the vowels the array [vowels]; a nested [switch] on their
    lengths builds the three-character skeleton.  The file states the
    abstract skeleton [skeleton] (consonants, then vowels, then [X] padding,
    except that a given name with four or more consonants keeps the first,
    third and fourth), proves that [nameExtractor] refines it, and shows
    which characters of the name reach the consonant array. *)

From stdpp Require Import base list strings sets.
From Stdlib Require Import ZArith Ascii Lia.
From S2P Require Import Prelude JsCore.

Module NameEncoder.

(** ** The model *)

(** [name.trim().toUpperCase().split(' ').join('').split('')] *)
Definition normalize (name : string) : list ascii :=
  String.list_ascii_of_string
    (Js.join_empty (Js.split " "%char (Js.toUpperCase (Js.trim name)))).

(** The filter of line 77: every character but [A], [E], [I], [O], [U]. *)
Definition consonant_test (element : ascii) : bool :=
  negb (element =? "A")%char && negb (element =? "E")%char &&
  negb (element =? "I")%char && negb (element =? "O")%char &&
  negb (element =? "U")%char.

(** The filter of line 78: the characters [A], [E], [I], [O], [U]. *)
Definition vowel_test (element : ascii) : bool :=
  (element =? "A")%char || (element =? "E")%char || (element =? "I")%char ||
  (element =? "O")%char || (element =? "U")%char.

Definition consonants_of (name : string) : list ascii :=
  List.filter consonant_test (normalize name).

Definition vowels_of (name : string) : list ascii :=
  List.filter vowel_test (normalize name).

(** [arr[i]] used as a string operand of [+]: the element, or the text
    ["undefined"] when [i] is out of range. *)
Definition idx (arr : list ascii) (i : nat) : string :=
  match nth_error arr i with
  | Some c => str c
  | None => "undefined"
  end.

Definition nameExtractor (name : string) (isName : bool) : string :=
  let consonants := consonants_of name in
  let vowels := vowels_of name in
  match length consonants with
  | 0 =>
      match length vowels with
      | 0 => "XXX"
      | 1 => idx vowels 0 ⊕ "XX"
      | 2 => idx vowels 0 ⊕ idx vowels 1 ⊕ "X"
      | _ => idx vowels 0 ⊕ idx vowels 1 ⊕ idx vowels 2
      end
  | 1 =>
      idx consonants 0 ⊕
      match length vowels with
      | 0 => "XX"
      | 1 => idx vowels 0 ⊕ "X"
      | _ => idx vowels 0 ⊕ idx vowels 1
      end
  | 2 =>
      idx consonants 0 ⊕ idx consonants 1 ⊕
      match length vowels with
      | 0 => "X"
      | _ => idx vowels 0
      end
  | _ =>
      if isName then
        if length consonants =? 3 then
          idx consonants 0 ⊕ idx consonants 1 ⊕ idx consonants 2
        else idx consonants 0 ⊕ idx consonants 2 ⊕ idx consonants 3
      else idx consonants 0 ⊕ idx consonants 1 ⊕ idx consonants 2
  end.

(** ** The abstract skeleton *)

(** Consonants first, then vowels, then [X] padding, cut at three; a given
    name with at least four consonants keeps consonants 1, 3 and 4. *)
Definition skeleton (isName : bool) (cs vs : list ascii) : list ascii :=
  match isName, cs with
  | true, c0 :: _ :: c2 :: c3 :: _ => [c0; c2; c3]
  | _, _ => take 3 (cs ++ vs ++ ["X"; "X"; "X"]%char)
  end.

(** ** Lemmas *)

Lemma skeleton_length isName cs vs : length (skeleton isName cs vs) = 3.
Proof.
  unfold skeleton. destruct isName, cs as [|c0 [|c1 [|c2 [|c3 cs]]]];
    rewrite ?length_take, ?length_app; cbn [length]; lia.
Qed.

Lemma skeleton_incl isName cs vs c :
  c ∈ skeleton isName cs vs -> c ∈ cs \/ c ∈ vs \/ c = "X"%char.
Proof.
  intros Hc.
  assert (Hgen : c ∈ take 3 (cs ++ vs ++ ["X"; "X"; "X"]%char) ->
                 c ∈ cs \/ c ∈ vs \/ c = "X"%char).
  { intros H. pose proof (subseteq_take 3 (cs ++ vs ++ ["X"; "X"; "X"]%char) c H) as H'.
    rewrite !elem_of_app, !elem_of_cons in H'.
    destruct H' as [?|[?|[?|[?|[?|H']]]]]; auto. inversion H'. }
  unfold skeleton in Hc.
  destruct isName, cs as [|c0 [|c1 [|c2 [|c3 cs]]]];
    try (apply Hgen; exact Hc).
  left. rewrite !elem_of_cons in Hc.
  destruct Hc as [->|[->|[->|Hc]]]; rewrite ?elem_of_cons; auto. inversion Hc.
Qed.

Lemma consonants_of_test name c : c ∈ consonants_of name -> consonant_test c = true.
Proof. unfold consonants_of. intros H%list_elem_of_In%filter_In. tauto. Qed.

Lemma vowels_of_test name c : c ∈ vowels_of name -> vowel_test c = true.
Proof. unfold vowels_of. intros H%list_elem_of_In%filter_In. tauto. Qed.

(** ** Theorems *)

Lemma nameExtractor_skeleton (name : string) (isName : bool) :
  String.list_ascii_of_string (nameExtractor name isName) =
  skeleton isName (consonants_of name) (vowels_of name).
Proof.
  unfold nameExtractor.
  destruct (consonants_of name) as [|c0 [|c1 [|c2 [|c3 cs]]]],
    (vowels_of name) as [|v0 [|v1 [|v2 vs]]], isName; reflexivity.
Qed.

(** C5: refinement.  The nested [switch] of [nameExtractor] computes the
    abstract skeleton of the name's consonant and vowel arrays: consonants,
    then vowels, then [X] padding, cut at three characters, except that a
    given name with four or more consonants keeps consonants 1, 3 and 4. *)
Theorem nameExtractor_refines_skeleton (name : string) (isName : bool) :
  String.list_ascii_of_string (nameExtractor name isName) =
  skeleton isName (consonants_of name) (vowels_of name).
Proof. apply nameExtractor_skeleton. Qed.

Lemma normalize_spec (name : string) :
  normalize name =
  List.filter (fun d => negb (bool_decide (d = " "%char)))
    (map Js.ascii_upper (String.list_ascii_of_string (Js.trim name))).
Proof.
  unfold normalize. by rewrite Js.join_split, Js.list_ascii_of_remove_char,
    Js.list_ascii_of_toUpperCase.
Qed.

Lemma normalize_incl (name : string) (c : ascii) :
  c ∈ normalize name ->
  c <> " "%char /\ exists d, d ∈ String.list_ascii_of_string name /\ c = Js.ascii_upper d.
Proof.
  rewrite normalize_spec. intros H%list_elem_of_In%filter_In.
  destruct H as [Hin Hsp]. apply list_elem_of_In, list_elem_of_fmap in Hin.
  destruct Hin as (d & -> & Hd). split.
  - intros E. rewrite E in Hsp. by rewrite bool_decide_eq_true_2 in Hsp.
  - exists d. split; [by apply Js.trim_incl|done].
Qed.

Lemma normalize_toUpperCase (name : string) :
  normalize (Js.toUpperCase name) = normalize name.
Proof. unfold normalize. by rewrite Js.trim_toUpperCase, Js.toUpperCase_idem. Qed.

Lemma nameExtractor_elem (name : string) (isName : bool) (c : ascii) :
  c ∈ String.list_ascii_of_string (nameExtractor name isName) ->
  c = "X"%char \/ c ∈ normalize name.
Proof.
  rewrite nameExtractor_skeleton. intros [Hc|[Hc|Hc]]%skeleton_incl; auto;
    right; apply list_elem_of_In in Hc; apply filter_In in Hc; apply list_elem_of_In; tauto.
Qed.

Lemma nameExtractor_len (name : string) (isName : bool) :
  String.length (nameExtractor name isName) = 3.
Proof.
  by rewrite <- length_list_ascii_of_string, nameExtractor_skeleton, skeleton_length.
Qed.

(** C16: type.  [nameExtractor] always returns exactly three characters,
    for every input string and both values of [isName]. *)
Theorem nameExtractor_length (name : string) (isName : bool) :
  String.length (nameExtractor name isName) = 3.
Proof. apply nameExtractor_len. Qed.

(** C6: functional.  The given-name and surname asymmetry: when the name
    has at least four consonants, the given-name skeleton is consonants
    1, 3, 4 and the surname skeleton is consonants 1, 2, 3. *)
Theorem nameExtractor_four_consonants (name : string) (c0 c1 c2 c3 : ascii) (cs : list ascii) :
  consonants_of name = c0 :: c1 :: c2 :: c3 :: cs ->
  nameExtractor name true = str c0 ⊕ str c2 ⊕ str c3 /\
  nameExtractor name false = str c0 ⊕ str c1 ⊕ str c2.
Proof. intros E. unfold nameExtractor. by rewrite E. Qed.

Lemma nameExtractor_four_consonants_witness :
  consonants_of "Bacdef" = ["B"; "C"; "D"; "F"]%char /\
  (nameExtractor "Bacdef" true = str "B" ⊕ str "D" ⊕ str "F" /\
   nameExtractor "Bacdef" false = str "B" ⊕ str "C" ⊕ str "D").
Proof.
  split; [reflexivity|]. apply (nameExtractor_four_consonants _ _ _ _ _ []). reflexivity.
Defined.

(** C22: safety.  Every character of the skeleton is either the padding
    [X] or the upper-cased form of a character of the name other than a
    space (internal spaces are dropped, nothing else is). *)
Theorem nameExtractor_chars (name : string) (isName : bool) (c : ascii) :
  c ∈ String.list_ascii_of_string (nameExtractor name isName) ->
  c = "X"%char \/
  (c <> " "%char /\ exists d, d ∈ String.list_ascii_of_string name /\ c = Js.ascii_upper d).
Proof. intros [->|Hc%normalize_incl]%nameExtractor_elem; auto. Qed.

Lemma nameExtractor_chars_witness :
  "R"%char ∈ String.list_ascii_of_string (nameExtractor "rossi" false) /\
  ("R"%char = "X"%char \/
   ("R"%char <> " "%char /\
    exists d, d ∈ String.list_ascii_of_string "rossi" /\ "R"%char = Js.ascii_upper d)).
Proof.
  assert (H : "R"%char ∈ String.list_ascii_of_string (nameExtractor "rossi" false))
    by (vm_compute; left).
  split; [exact H|]. exact (nameExtractor_chars _ _ _ H).
Defined.

(** C23: functional.  A name made of ASCII letters and spaces gives a
    skeleton of capital letters [A]..[Z]. *)
Theorem nameExtractor_capitals (name : string) (isName : bool) :
  Forall (fun d => Js.is_letter d = true \/ d = " "%char) (String.list_ascii_of_string name) ->
  Forall (fun c => Js.is_capital c = true) (String.list_ascii_of_string (nameExtractor name isName)).
Proof.
  intros Hname. apply Forall_forall.
  intros c [->|(Hsp & d & Hd & ->)%normalize_incl]%nameExtractor_elem; [reflexivity|].
  rewrite Forall_forall in Hname.
  destruct (Hname d Hd) as [Hl| ->]; [by apply Js.ascii_upper_letter|done].
Qed.

Lemma nameExtractor_capitals_witness :
  Forall (fun d => Js.is_letter d = true \/ d = " "%char) (String.list_ascii_of_string "de Rossi") /\
  Forall (fun c => Js.is_capital c = true) (String.list_ascii_of_string (nameExtractor "de Rossi" false)).
Proof.
  assert (H : Forall (fun d => Js.is_letter d = true \/ d = " "%char)
                (String.list_ascii_of_string "de Rossi")).
  { repeat constructor; (left; reflexivity) || (right; reflexivity). }
  split; [exact H|]. apply (nameExtractor_capitals "de Rossi" false H).
Defined.

(** C24: functional.  The skeleton does not depend on the case of the
    input: upper-casing the name first gives the same result. *)
Theorem nameExtractor_toUpperCase (name : string) (isName : bool) :
  nameExtractor (Js.toUpperCase name) isName = nameExtractor name isName.
Proof. unfold nameExtractor, consonants_of, vowels_of. by rewrite normalize_toUpperCase. Qed.

(** C31: functional.  The consonant array is not restricted to letters:
    every character of the name that is not the space, is not a vowel once
    upper-cased and is not removed by [trim] (a character that is not white
    space lies at or before it and at or after it) counts as a consonant,
    in upper case.  So an apostrophe, a digit or a hyphen, and a tab
    between two parts of the name, enter the skeleton (the spec restricts
    skeletons to letters and removes internal spaces). *)
Theorem consonants_of_keeps_non_letters (p s : string) (c : ascii) :
  c <> " "%char -> consonant_test (Js.ascii_upper c) = true ->
  Exists (fun d => Js.is_whitespace d = false) (String.list_ascii_of_string p ++ [c]) ->
  Exists (fun d => Js.is_whitespace d = false) (c :: String.list_ascii_of_string s) ->
  Js.ascii_upper c ∈ consonants_of (p ⊕ String c s).
Proof.
  intros Hsp Hcons Hp Hs. unfold consonants_of. rewrite normalize_spec.
  apply list_elem_of_In, filter_In. split; [|done].
  apply filter_In. split.
  - apply in_map, list_elem_of_In. eapply Js.trim_keep; [|exact Hp|exact Hs].
    by rewrite list_ascii_of_string_append.
  - apply negb_true_iff, bool_decide_eq_false_2. intros E.
    apply Hsp. destruct c as [[] [] [] [] [] [] [] []]; (discriminate || reflexivity).
Qed.

Lemma consonants_of_keeps_non_letters_witness :
  "'"%char <> " "%char /\ consonant_test (Js.ascii_upper "'") = true /\
  Exists (fun d => Js.is_whitespace d = false) (String.list_ascii_of_string "D" ++ ["'"%char]) /\
  Exists (fun d => Js.is_whitespace d = false) ("'"%char :: String.list_ascii_of_string "Angelo") /\
  Js.ascii_upper "'" ∈ consonants_of ("D" ⊕ String "'" "Angelo").
Proof.
  assert (H1 : "'"%char <> " "%char) by discriminate.
  assert (H2 : consonant_test (Js.ascii_upper "'") = true) by reflexivity.
  assert (H3 : Exists (fun d => Js.is_whitespace d = false)
                 (String.list_ascii_of_string "D" ++ ["'"%char])) by (left; reflexivity).
  assert (H4 : Exists (fun d => Js.is_whitespace d = false)
                 ("'"%char :: String.list_ascii_of_string "Angelo")) by (left; reflexivity).
  repeat (split; [assumption|]).
  exact (consonants_of_keeps_non_letters "D" "Angelo" "'" H1 H2 H3 H4).
Defined.

End NameEncoder.
