(* ===== verification/DateSexEncoder.v ===== *)
(** The date and sex encoder: [MainFormComponent.dateAndSexExtractor]
    (src/src/app/views/main-form/main-form.component.ts, lines 133-179) and
    its helper [addZero] (lines 181-187).  The token is the characters 3
    and 4 of the decimal year, the month letter of a twelve-entry table, and
    the day of the month (plus 40 for women) padded to two digits.  The file
    proves the layout of the token on four-digit years, its length, a
    decoder and the round trip (so the token determines year modulo 100,
    month, day and sex), that [addZero] prints the decimal numeral padded
    to exactly two digits, and records what the code does on other
    years. *)

From stdpp Require Import base list strings.
From Stdlib Require Import ZArith Ascii Lia.
From S2P Require Import Prelude JsCore.

Module DateSexEncoder.

(** ** The model *)

(** [Sex] of src/src/app/models/user.ts. *)
Inductive Sex := male | female.

(** The three [Date] accessors the code reads. *)
Record Date := mkDate {
  getFullYear : Z;
  getMonth : Z;   (** 0-based, as in JavaScript *)
  getDate : Z
}.

(** [String(year).split('').splice(2, 2).join('')] *)
Definition year_part (year : Z) : string :=
  String.string_of_list_ascii
    (Js.splice_removed 2 2 (String.list_ascii_of_string (Js.number_to_string year))).

(** The [switch (date.getMonth())] of lines 135-172; a month outside 0..11
    matches no case and appends nothing. *)
Definition month_letter (month : Z) : string :=
  match month with
  | 0 => "A" | 1 => "B" | 2 => "C" | 3 => "D" | 4 => "E" | 5 => "H"
  | 6 => "L" | 7 => "M" | 8 => "P" | 9 => "R" | 10 => "S" | 11 => "T"
  | _ => ""
  end%Z.

Definition addZero (number : Z) : string :=
  if (number <? 10)%Z then "0" ⊕ Js.number_to_string number
  else Js.number_to_string number.

Definition dateAndSexExtractor (date : Date) (sex : Sex) : string :=
  let result := year_part (getFullYear date) ⊕ month_letter (getMonth date) in
  let day := match sex with female => (getDate date + 40)%Z | male => getDate date end in
  result ⊕ addZero day.

(** ** A decoder (specification side) *)

Definition month_table : list ascii := String.list_ascii_of_string "ABCDEHLMPRST".

Fixpoint index_of (c : ascii) (l : list ascii) : option nat :=
  match l with
  | [] => None
  | d :: r => if ascii_dec c d then Some 0 else S <$> index_of c r
  end.

(** Reads back year modulo 100, month, day and sex from a token. *)
Definition decode (token : string) : option (Z * Z * Z * Sex) :=
  match String.list_ascii_of_string token with
  | [y1; y2; mc; d1; d2] =>
      match index_of mc month_table with
      | Some m =>
          let dd := (Js.digit_value d1 * 10 + Js.digit_value d2)%Z in
          Some ((Js.digit_value y1 * 10 + Js.digit_value y2)%Z, Z.of_nat m,
                (if (41 <=? dd)%Z then dd - 40 else dd)%Z,
                if (41 <=? dd)%Z then female else male)
      | None => None
      end
  | _ => None
  end.

(** ** Lemmas *)

Lemma number_to_string_two_digits (n : Z) :
  (10 <= n < 100)%Z ->
  String.list_ascii_of_string (Js.number_to_string n) =
  [Js.digit_char (n / 10); Js.digit_char (n mod 10)].
Proof.
  intros Hn. rewrite Js.number_to_string_nonneg, Js.digits_step by lia.
  rewrite Js.digits_small by (split; [apply Z.div_pos|apply Z.div_lt_upper_bound]; lia).
  reflexivity.
Qed.

Lemma number_to_string_four_digits (y : Z) :
  (1000 <= y <= 9999)%Z ->
  String.list_ascii_of_string (Js.number_to_string y) =
  [Js.digit_char (y / 1000); Js.digit_char (y / 100 mod 10);
   Js.digit_char (y / 10 mod 10); Js.digit_char (y mod 10)].
Proof.
  intros Hy. rewrite Js.number_to_string_nonneg, Js.digits_step by lia. rewrite Js.digits_step by (apply Z.div_le_lower_bound; lia).
  rewrite Js.digits_step by (rewrite Z.div_div by lia; apply Z.div_le_lower_bound; lia).
  rewrite Js.digits_small by (rewrite !Z.div_div by lia; split;
    [apply Z.div_pos|apply Z.div_lt_upper_bound]; lia).
  rewrite !Z.div_div by lia. reflexivity.
Qed.

Lemma year_part_four_digits (y : Z) :
  (1000 <= y <= 9999)%Z ->
  String.list_ascii_of_string (year_part y) =
  [Js.digit_char (y mod 100 / 10); Js.digit_char (y mod 10)].
Proof.
  intros Hy. unfold year_part. rewrite String.list_ascii_of_string_of_list_ascii.
  rewrite number_to_string_four_digits by done.
  replace (y mod 100 / 10)%Z with (y / 10 mod 10)%Z
    by (Z.to_euclidean_division_equations; nia).
  reflexivity.
Qed.

Lemma length_digits (k : nat) (n : Z) :
  (0 <= n < 10 ^ Z.of_nat (S k))%Z -> String.length (Js.digits n) <= S k.
Proof.
  revert n. induction k as [|k IH]; intros n Hn.
  - rewrite Js.digits_small by (simpl in Hn; lia). simpl. lia.
  - destruct (Z.ltb_spec n 10); [rewrite Js.digits_small by lia; simpl; lia|].
    rewrite Js.digits_step, string_length_append by lia. simpl String.length.
    enough (String.length (Js.digits (n / 10)) <= S k) by lia.
    apply IH. rewrite Nat2Z.inj_succ, Z.pow_succ_r in Hn by lia.
    split; [apply Z.div_pos; lia|]. apply Z.div_lt_upper_bound; lia.
Qed.

Lemma addZero_two_digits (n : Z) :
  (0 <= n < 100)%Z ->
  String.list_ascii_of_string (addZero n) = [Js.digit_char (n / 10); Js.digit_char (n mod 10)].
Proof.
  intros Hn. unfold addZero. destruct (Z.ltb_spec n 10).
  - rewrite Js.number_to_string_nonneg, Js.digits_small by lia. rewrite Z.div_small, Z.mod_small by lia. reflexivity.
  - apply number_to_string_two_digits; lia.
Qed.

Lemma month_letter_spec (m : Z) :
  (0 <= m <= 11)%Z ->
  exists c, month_letter m = str c /\ index_of c month_table = Some (Z.to_nat m).
Proof.
  intros Hm.
  assert (m = 0 \/ m = 1 \/ m = 2 \/ m = 3 \/ m = 4 \/ m = 5 \/ m = 6 \/ m = 7 \/
          m = 8 \/ m = 9 \/ m = 10 \/ m = 11)%Z as Hcases by lia.
  repeat (destruct Hcases as [->|Hcases]; [eexists; split; reflexivity|]).
  subst. eexists; split; reflexivity.
Qed.

(** The day field: day of the month, plus 40 for women. *)
Definition day_field (date : Date) (sex : Sex) : Z :=
  match sex with female => (getDate date + 40)%Z | male => getDate date end.

(** The calendar ranges of the [Date] accessors, with a four-digit year. *)
Definition valid_date (date : Date) : Prop :=
  (1000 <= getFullYear date <= 9999)%Z /\ (0 <= getMonth date <= 11)%Z /\
  (1 <= getDate date <= 31)%Z.

(** ** Theorems *)

Lemma dateAndSexExtractor_chars (date : Date) (sex : Sex) :
  valid_date date ->
  String.list_ascii_of_string (dateAndSexExtractor date sex) =
  [Js.digit_char (getFullYear date mod 100 / 10); Js.digit_char (getFullYear date mod 10)] ++
  String.list_ascii_of_string (month_letter (getMonth date)) ++
  [Js.digit_char (day_field date sex / 10); Js.digit_char (day_field date sex mod 10)].
Proof.
  intros (Hy & Hm & Hd). unfold dateAndSexExtractor.
  rewrite !list_ascii_of_string_append, year_part_four_digits by done.
  rewrite addZero_two_digits by (destruct sex; simpl; lia). reflexivity.
Qed.

(** C7: functional.  On a four-digit year, a month in 0..11 and a day in
    1..31, the token is the two last digits of the year, the month letter
    and the two digits of the day field (the day, plus 40 for women). *)
Theorem dateAndSexExtractor_layout (date : Date) (sex : Sex) :
  valid_date date ->
  String.list_ascii_of_string (dateAndSexExtractor date sex) =
  [Js.digit_char (getFullYear date mod 100 / 10); Js.digit_char (getFullYear date mod 10)] ++
  String.list_ascii_of_string (month_letter (getMonth date)) ++
  [Js.digit_char (day_field date sex / 10); Js.digit_char (day_field date sex mod 10)].
Proof. apply dateAndSexExtractor_chars. Qed.

Lemma dateAndSexExtractor_layout_witness :
  valid_date (mkDate 1990 0 5) /\
  String.list_ascii_of_string (dateAndSexExtractor (mkDate 1990 0 5) female) =
  [Js.digit_char (1990 mod 100 / 10); Js.digit_char (1990 mod 10)] ++
  String.list_ascii_of_string (month_letter 0) ++
  [Js.digit_char (day_field (mkDate 1990 0 5) female / 10);
   Js.digit_char (day_field (mkDate 1990 0 5) female mod 10)].
Proof.
  assert (H : valid_date (mkDate 1990 0 5)) by (unfold valid_date; simpl; lia).
  split; [exact H|]. apply (dateAndSexExtractor_layout _ female H).
Defined.

Lemma dateAndSexExtractor_len (date : Date) (sex : Sex) :
  valid_date date -> String.length (dateAndSexExtractor date sex) = 5.
Proof.
  intros Hv. rewrite <- length_list_ascii_of_string, dateAndSexExtractor_chars by done.
  destruct Hv as (_ & Hm & _). destruct (month_letter_spec _ Hm) as (c & -> & _).
  reflexivity.
Qed.

(** C17: bounds.  On valid dates the token has exactly five characters. *)
Theorem dateAndSexExtractor_length (date : Date) (sex : Sex) :
  valid_date date -> String.length (dateAndSexExtractor date sex) = 5.
Proof. apply dateAndSexExtractor_len. Qed.

Lemma dateAndSexExtractor_length_witness :
  valid_date (mkDate 1980 2 12) /\ String.length (dateAndSexExtractor (mkDate 1980 2 12) male) = 5.
Proof.
  assert (H : valid_date (mkDate 1980 2 12)) by (unfold valid_date; simpl; lia).
  split; [exact H|]. apply (dateAndSexExtractor_length _ male H).
Defined.

Lemma digit_value_div_mod (n : Z) :
  (0 <= n < 100)%Z ->
  (Js.digit_value (Js.digit_char (n / 10)) * 10 + Js.digit_value (Js.digit_char (n mod 10)))%Z = n.
Proof.
  intros Hn. rewrite !Js.digit_value_digit_char.
  - Z.to_euclidean_division_equations. lia.
  - apply Z.mod_pos_bound. lia.
  - split; [apply Z.div_pos|apply Z.div_lt_upper_bound]; lia.
Qed.

Lemma decode_dateAndSexExtractor_eq (date : Date) (sex : Sex) :
  valid_date date ->
  decode (dateAndSexExtractor date sex) =
  Some (getFullYear date mod 100, getMonth date, getDate date, sex)%Z.
Proof.
  intros Hv. pose proof Hv as (Hy & Hm & Hd). unfold decode.
  rewrite dateAndSexExtractor_chars by done.
  destruct (month_letter_spec _ Hm) as (c & -> & Hc).
  rewrite list_ascii_of_string_str. cbn [app]. rewrite Hc. cbv beta iota zeta.
  replace (getFullYear date mod 10)%Z with (getFullYear date mod 100 mod 10)%Z
    by (Z.to_euclidean_division_equations; lia).
  rewrite Z2Nat.id, !digit_value_div_mod by
    (try apply Z.mod_pos_bound; destruct sex; unfold day_field; lia).
  destruct sex; unfold day_field;
    [destruct (Z.leb_spec 41 (getDate date)) | destruct (Z.leb_spec 41 (getDate date + 40))];
    try lia; repeat f_equal; lia.
Qed.

(** C8: roundtrip.  The token of a valid date decodes back to the year
    modulo 100, the month, the day and the sex. *)
Theorem decode_dateAndSexExtractor (date : Date) (sex : Sex) :
  valid_date date ->
  decode (dateAndSexExtractor date sex) =
  Some (getFullYear date mod 100, getMonth date, getDate date, sex)%Z.
Proof. apply decode_dateAndSexExtractor_eq. Qed.

Lemma decode_dateAndSexExtractor_witness :
  valid_date (mkDate 1990 0 5) /\
  decode (dateAndSexExtractor (mkDate 1990 0 5) female) = Some (1990 mod 100, 0, 5, female)%Z.
Proof.
  assert (H : valid_date (mkDate 1990 0 5)) by (unfold valid_date; simpl; lia).
  split; [exact H|]. exact (decode_dateAndSexExtractor _ female H).
Defined.

(** C25: functional.  Two valid dates whose tokens agree have the same
    year modulo 100, month and day, and the same sex. *)
Corollary dateAndSexExtractor_injective (d1 d2 : Date) (s1 s2 : Sex) :
  valid_date d1 -> valid_date d2 ->
  dateAndSexExtractor d1 s1 = dateAndSexExtractor d2 s2 ->
  (getFullYear d1 mod 100 = getFullYear d2 mod 100)%Z /\ getMonth d1 = getMonth d2 /\
  getDate d1 = getDate d2 /\ s1 = s2.
Proof.
  intros H1 H2 E. apply (f_equal decode) in E.
  rewrite !decode_dateAndSexExtractor_eq in E by done.
  injection E as Hy Hm Hd Hs. repeat split; assumption.
Qed.

Lemma dateAndSexExtractor_injective_witness :
  valid_date (mkDate 1980 2 12) /\ valid_date (mkDate 2080 2 12) /\
  dateAndSexExtractor (mkDate 1980 2 12) male = dateAndSexExtractor (mkDate 2080 2 12) male /\
  ((getFullYear (mkDate 1980 2 12) mod 100 = getFullYear (mkDate 2080 2 12) mod 100)%Z /\
   getMonth (mkDate 1980 2 12) = getMonth (mkDate 2080 2 12) /\
   getDate (mkDate 1980 2 12) = getDate (mkDate 2080 2 12) /\ male = male).
Proof.
  assert (H1 : valid_date (mkDate 1980 2 12)) by (unfold valid_date; simpl; lia).
  assert (H2 : valid_date (mkDate 2080 2 12)) by (unfold valid_date; simpl; lia).
  assert (E : dateAndSexExtractor (mkDate 1980 2 12) male =
              dateAndSexExtractor (mkDate 2080 2 12) male) by (vm_compute; reflexivity).
  split; [exact H1|]. split; [exact H2|]. split; [exact E|].
  exact (dateAndSexExtractor_injective _ _ _ _ H1 H2 E).
Defined.

(** C26: bounds.  A year between 0 and 999 has fewer than three decimal
    digits to take characters 3 and 4 from: the year field of the token has
    at most one character, so the token is shorter than five characters
    (the spec asks for the last two digits, zero-padded). *)
Theorem year_part_short (y : Z) : (0 <= y < 1000)%Z -> String.length (year_part y) <= 1.
Proof.
  intros Hy. unfold year_part. rewrite <- length_list_ascii_of_string,
    String.list_ascii_of_string_of_list_ascii, Js.number_to_string_nonneg by lia.
  unfold Js.splice_removed. rewrite length_firstn, length_skipn, length_list_ascii_of_string.
  pose proof (length_digits 2 y ltac:(simpl; lia)). lia.
Qed.

Lemma year_part_short_witness :
  (0 <= 999 < 1000)%Z /\ String.length (year_part 999) <= 1.
Proof. split; [lia|]. apply year_part_short. lia. Defined.

Lemma digits_nonempty (m : Z) : (0 <= m)%Z -> 1 <= String.length (Js.digits m).
Proof.
  intros Hm. destruct (Z.ltb_spec m 10).
  - rewrite Js.digits_small by lia. simpl. lia.
  - rewrite Js.digits_step, string_length_append by lia. simpl String.length. lia.
Qed.

Lemma decimal_value_leading_zero (s : string) : Js.decimal_value ("0" ⊕ s) = Js.decimal_value s.
Proof. unfold Js.decimal_value. by rewrite list_ascii_of_string_append, fold_left_app. Qed.

(** C30: roundtrip.  [addZero] prints a non-negative number as a decimal
    numeral padded to two digits and no further: its characters are
    digits, reading them back gives the number (the padding zero reads as
    nothing), and its length is the larger of two and the length of
    [String(number)], so a zero is added exactly below 10. *)
Theorem addZero_roundtrip (n : Z) :
  (0 <= n)%Z ->
  Js.decimal_value (addZero n) = n /\
  String.length (addZero n) = Nat.max 2 (String.length (Js.number_to_string n)) /\
  Forall (fun c => Js.is_digit c = true) (String.list_ascii_of_string (addZero n)).
Proof.
  intros Hn. destruct (Js.digits_numeral n Hn) as [Hv Hd].
  unfold addZero. rewrite !Js.number_to_string_nonneg by done.
  destruct (Z.ltb_spec n 10).
  - rewrite decimal_value_leading_zero, string_length_append, list_ascii_of_string_append.
    split; [done|]. split; [rewrite Js.digits_small by lia; reflexivity|].
    cbn [String.list_ascii_of_string app]. by constructor.
  - split; [done|]. split; [|done].
    rewrite Js.digits_step, string_length_append by lia. simpl String.length.
    pose proof (digits_nonempty (n / 10) ltac:(apply Z.div_pos; lia)). lia.
Qed.

Lemma addZero_roundtrip_witness :
  (0 <= 12)%Z /\
  (Js.decimal_value (addZero 12) = 12%Z /\
   String.length (addZero 12) = Nat.max 2 (String.length (Js.number_to_string 12)) /\
   Forall (fun c => Js.is_digit c = true) (String.list_ascii_of_string (addZero 12))).
Proof. assert (H : (0 <= 12)%Z) by lia. split; [exact H|]. exact (addZero_roundtrip 12 H). Defined.

(** Tokens of the examples of the spec. *)
Example dateAndSexExtractor_1990_male : dateAndSexExtractor (mkDate 1990 0 5) male = "90A05".
Proof. vm_compute. reflexivity. Qed.

Example dateAndSexExtractor_1990_female : dateAndSexExtractor (mkDate 1990 0 5) female = "90A45".
Proof. vm_compute. reflexivity. Qed.

Example dateAndSexExtractor_year_999 : dateAndSexExtractor (mkDate 999 0 5) male = "9A05".
Proof. vm_compute. reflexivity. Qed.

Example dateAndSexExtractor_year_12345 : dateAndSexExtractor (mkDate 12345 0 5) male = "34A05".
Proof. vm_compute. reflexivity. Qed.

End DateSexEncoder.
