(* ===== verification/CheckDigit.v ===== *)
(** The check character: [MainFormComponent.lastCode], [oddsCalculator],
    [evensCalculator] and [lastCodeCalculator]
    (src/src/app/views/main-form/main-form.component.ts, lines 193-524).
    The characters at odd 1-based positions are summed with the odd-position
    table, those at even positions with the even-position table, the total
    is reduced modulo 26 and mapped to a capital letter.  The two tables are
    instances of the class [ConversionTable] (values in 0..25, injective on
    capitals and on digits); the file proves that the parity partition
    computes a positional weighted sum, that the result is always one
    capital letter, and that substituting one capital for another (or one
    digit for another) at any position changes the check character. *)

From stdpp Require Import base list strings.
From Stdlib Require Import ZArith Ascii Lia.
From S2P Require Import Prelude JsCore.

Module CheckDigit.

(** ** The model *)

(** The [switch] of [oddsCalculator] (lines 210-319): the amount added for
    one character; a character outside 0-9, A-Z matches no case. *)
Definition odd_value (element : ascii) : Z :=
  match element with
  | "0" => 1 | "1" => 0 | "2" => 5 | "3" => 7 | "4" => 9
  | "5" => 13 | "6" => 15 | "7" => 17 | "8" => 19 | "9" => 21
  | "A" => 1 | "B" => 0 | "C" => 5 | "D" => 7 | "E" => 9 | "F" => 13
  | "G" => 15 | "H" => 17 | "I" => 19 | "J" => 21 | "K" => 2 | "L" => 4
  | "M" => 18 | "N" => 20 | "O" => 11 | "P" => 3 | "Q" => 6 | "R" => 8
  | "S" => 12 | "T" => 14 | "U" => 16 | "V" => 10 | "W" => 22 | "X" => 25
  | "Y" => 24 | "Z" => 23
  | _ => 0
  end%char%Z.

(** The [switch] of [evensCalculator] (lines 327-436). *)
Definition even_value (element : ascii) : Z :=
  match element with
  | "0" => 0 | "1" => 1 | "2" => 2 | "3" => 3 | "4" => 4
  | "5" => 5 | "6" => 6 | "7" => 7 | "8" => 8 | "9" => 9
  | "A" => 0 | "B" => 1 | "C" => 2 | "D" => 3 | "E" => 4 | "F" => 5
  | "G" => 6 | "H" => 7 | "I" => 8 | "J" => 9 | "K" => 10 | "L" => 11
  | "M" => 12 | "N" => 13 | "O" => 14 | "P" => 15 | "Q" => 16 | "R" => 17
  | "S" => 18 | "T" => 19 | "U" => 20 | "V" => 21 | "W" => 22 | "X" => 23
  | "Y" => 24 | "Z" => 25
  | _ => 0
  end%char%Z.

(** [let result = 0; odds.forEach(element => { result += ... })] *)
Definition oddsCalculator (odds : list ascii) : Z :=
  fold_left (fun result element => (result + odd_value element)%Z) odds 0%Z.

Definition evensCalculator (evens : list ascii) : Z :=
  fold_left (fun result element => (result + even_value element)%Z) evens 0%Z.

(** The [switch (number)] of lines 443-522; a number outside 0..25 leaves
    the result empty. *)
Definition lastCodeCalculator (number : Z) : string :=
  match number with
  | 0 => "A" | 1 => "B" | 2 => "C" | 3 => "D" | 4 => "E" | 5 => "F"
  | 6 => "G" | 7 => "H" | 8 => "I" | 9 => "J" | 10 => "K" | 11 => "L"
  | 12 => "M" | 13 => "N" | 14 => "O" | 15 => "P" | 16 => "Q" | 17 => "R"
  | 18 => "S" | 19 => "T" | 20 => "U" | 21 => "V" | 22 => "W" | 23 => "X"
  | 24 => "Y" | 25 => "Z"
  | _ => ""
  end%Z.

(** One iteration of [partialCode.split('').forEach((element, index) =>
    ...)] (lines 196-202): the element goes to [evens] when [(index + 1) % 2
    === 0], to [odds] otherwise. *)
Definition partition_step (acc : list ascii * list ascii) (ei : ascii * nat)
    : list ascii * list ascii :=
  let '(odds, evens) := acc in
  let '(element, index) := ei in
  if (Z.rem (Z.of_nat index + 1) 2 =? 0)%Z then (odds, evens ++ [element])
  else (odds ++ [element], evens).

Definition partition_positions (chars : list ascii) : list ascii * list ascii :=
  fold_left partition_step (combine chars (seq 0 (length chars))) ([], []).

Definition lastCode (partialCode : string) : string :=
  let '(odds, evens) := partition_positions (String.list_ascii_of_string partialCode) in
  let number := Z.rem (oddsCalculator odds + evensCalculator evens) 26 in
  lastCodeCalculator number.

(** ** Conversion tables: the interface the check character relies on *)

(** A conversion table maps every character to 0..25, and distinct capitals
    (and distinct digits) to distinct values. *)
Class ConversionTable (value : ascii -> Z) : Prop := {
  table_range : forall c, (0 <= value c <= 25)%Z;
  table_capitals_inj : forall x y,
    Js.is_capital x = true -> Js.is_capital y = true -> value x = value y -> x = y;
  table_digits_inj : forall x y,
    Js.is_digit x = true -> Js.is_digit y = true -> value x = value y -> x = y
}.

(** Two characters of the same class: both capitals or both digits. *)
Definition same_class (x y : ascii) : bool :=
  (Js.is_capital x && Js.is_capital y) || (Js.is_digit x && Js.is_digit y).

(** The characters at odd and at even 1-based positions; [odd] says whether
    the head is at an odd position. *)
Fixpoint deal {A} (odd : bool) (l : list A) : list A * list A :=
  match l with
  | [] => ([], [])
  | x :: r =>
      let '(o, e) := deal (negb odd) r in
      if odd then (x :: o, e) else (o, x :: e)
  end.

Section WeightedSum.
Context (fo fe : ascii -> Z) `{!ConversionTable fo} `{!ConversionTable fe}.

(** The positional reference: the odd-position table at odd positions,
    the even-position table at even positions. *)
Fixpoint weighted_sum (odd : bool) (l : list ascii) : Z :=
  match l with
  | [] => 0%Z
  | c :: r => ((if odd then fo c else fe c) + weighted_sum (negb odd) r)%Z
  end.

Lemma weighted_sum_deal (odd : bool) (l : list ascii) :
  (zsum fo (deal odd l).1 + zsum fe (deal odd l).2)%Z = weighted_sum odd l.
Proof.
  revert odd. induction l as [|c l IH]; intros odd; [done|]. simpl.
  specialize (IH (negb odd)). destruct (deal (negb odd) l) as [o e].
  destruct odd; simpl in *; lia.
Qed.

Lemma weighted_sum_nonneg (odd : bool) (l : list ascii) : (0 <= weighted_sum odd l)%Z.
Proof.
  revert odd. induction l as [|c l IH]; intros odd; simpl; [lia|].
  specialize (IH (negb odd)). pose proof (table_range (value := fo) c).
  pose proof (table_range (value := fe) c). destruct odd; lia.
Qed.

(** The parity of the position after a prefix. *)
Definition parity_after (odd : bool) {A} (pre : list A) : bool :=
  if Nat.even (length pre) then odd else negb odd.

Lemma weighted_sum_split (odd : bool) (pre post : list ascii) (x : ascii) :
  weighted_sum odd (pre ++ x :: post) =
  (weighted_sum odd pre +
   (if parity_after odd pre then fo x else fe x) +
   weighted_sum (negb (parity_after odd pre)) post)%Z.
Proof.
  unfold parity_after. revert odd.
  induction pre as [|c pre IH]; intros odd; cbn [app weighted_sum length];
    [destruct odd; simpl; lia|].
  rewrite IH, Nat.even_succ, <- Nat.negb_even.
  destruct (Nat.even (length pre)), odd; simpl; lia.
Qed.

Lemma table_value_inj (value : ascii -> Z) `{!ConversionTable value} (x y : ascii) :
  same_class x y = true -> value x = value y -> x = y.
Proof.
  unfold same_class. intros Hc Hv. apply orb_true_iff in Hc as [Hc|Hc];
    apply andb_true_iff in Hc as [Hx Hy].
  - by apply table_capitals_inj.
  - by apply table_digits_inj.
Qed.

(** Substituting one character for another of the same class changes the
    weighted sum modulo 26. *)
Lemma weighted_sum_substitution (odd : bool) (pre post : list ascii) (x y : ascii) :
  same_class x y = true -> x <> y ->
  (weighted_sum odd (pre ++ x :: post) mod 26 <> weighted_sum odd (pre ++ y :: post) mod 26)%Z.
Proof.
  intros Hc Hne Hmod. rewrite !weighted_sum_split in Hmod.
  apply Z_mod_eq_close in Hmod; [|lia|].
  - destruct (parity_after odd pre); apply Hne.
    + apply (table_value_inj fo); [done|lia].
    + apply (table_value_inj fe); [done|lia].
  - pose proof (table_range (value := fo) x). pose proof (table_range (value := fo) y).
    pose proof (table_range (value := fe) x). pose proof (table_range (value := fe) y).
    destruct (parity_after odd pre); lia.
Qed.
End WeightedSum.

(** ** The two tables are conversion tables *)

Definition capitals : list ascii := String.list_ascii_of_string "ABCDEFGHIJKLMNOPQRSTUVWXYZ".
Definition digits : list ascii := String.list_ascii_of_string "0123456789".

(** Proves [In c l] for a concrete [c] and list [l]. *)
Ltac solve_In := simpl; repeat (first [left; reflexivity | right]).

Lemma capital_In (c : ascii) : Js.is_capital c = true -> In c capitals.
Proof. destruct c as [[] [] [] [] [] [] [] []]; intros H; (discriminate || solve_In). Qed.

Lemma digit_In (c : ascii) : Js.is_digit c = true -> In c digits.
Proof. destruct c as [[] [] [] [] [] [] [] []]; intros H; (discriminate || solve_In). Qed.

Lemma ascii_eqb_true (x y : ascii) : (x =? y)%char = true -> x = y.
Proof. apply Ascii.eqb_eq. Qed.

Lemma odd_value_range (c : ascii) : (0 <= odd_value c <= 25)%Z.
Proof. destruct c as [[] [] [] [] [] [] [] []]; simpl; lia. Qed.

Lemma even_value_range (c : ascii) : (0 <= even_value c <= 25)%Z.
Proof. destruct c as [[] [] [] [] [] [] [] []]; simpl; lia. Qed.

(** [tables_inj] closes an injectivity field from the boolean check. *)
Ltac tables_inj l Hl :=
  intros x y Hx Hy; apply (inj_on_spec Ascii.eqb _ l ascii_eqb_true);
  [vm_compute; reflexivity | by apply Hl | by apply Hl].

#[export] Instance odd_table : ConversionTable odd_value.
Proof.
  split; [apply odd_value_range| tables_inj capitals capital_In | tables_inj digits digit_In].
Qed.

#[export] Instance even_table : ConversionTable even_value.
Proof.
  split; [apply even_value_range| tables_inj capitals capital_In | tables_inj digits digit_In].
Qed.

(** ** The parity partition *)

Lemma rem_succ_parity (k : nat) : (Z.rem (Z.of_nat k + 1) 2 =? 0)%Z = negb (Nat.even k).
Proof.
  destruct (Nat.Even_or_Odd k) as [[m ->]|[m ->]].
  - rewrite Nat.even_mul. simpl. apply Z.eqb_neq. rewrite Z.rem_mod_nonneg by lia.
    Z.to_euclidean_division_equations. lia.
  - rewrite Nat.even_add, Nat.even_mul. simpl. apply Z.eqb_eq. rewrite Z.rem_mod_nonneg by lia.
    Z.to_euclidean_division_equations. lia.
Qed.

Lemma partition_fold (l : list ascii) (k : nat) (o e : list ascii) :
  fold_left partition_step (combine l (seq k (length l))) (o, e) =
  (o ++ (deal (Nat.even k) l).1, e ++ (deal (Nat.even k) l).2).
Proof.
  revert k o e. induction l as [|x l IH]; intros k o e; simpl; [by rewrite !app_nil_r|].
  rewrite rem_succ_parity. destruct (Nat.even k) eqn:Ek; simpl;
    rewrite IH, Nat.even_succ, <- Nat.negb_even, Ek; simpl;
    destruct (deal _ l) as [o' e']; simpl; by rewrite <- app_assoc.
Qed.

Lemma partition_positions_deal (l : list ascii) : partition_positions l = deal true l.
Proof. unfold partition_positions. rewrite partition_fold. by destruct (deal _ l). Qed.

Lemma lastCodeCalculator_letter (n : Z) :
  (0 <= n < 26)%Z -> lastCodeCalculator n = str (ascii_of_nat (65 + Z.to_nat n)).
Proof.
  intros Hn. rewrite <- (Z2Nat.id n) by lia.
  assert (Hk : (Z.to_nat n < 26)%nat) by lia. rewrite Nat2Z.id.
  generalize (Z.to_nat n) Hk. clear. intros k Hk.
  do 26 (destruct k as [|k]; [reflexivity|]). lia.
Qed.

Lemma capital_letter (k : nat) : k < 26 -> Js.is_capital (ascii_of_nat (65 + k)) = true.
Proof. intros Hk. do 26 (destruct k as [|k]; [reflexivity|]). lia. Qed.

Lemma letter_inj (a b : Z) :
  (0 <= a < 26)%Z -> (0 <= b < 26)%Z ->
  str (ascii_of_nat (65 + Z.to_nat a)) = str (ascii_of_nat (65 + Z.to_nat b)) -> a = b.
Proof.
  intros Ha Hb E. injection E as E. apply (f_equal nat_of_ascii) in E.
  rewrite !nat_ascii_embedding in E by lia. lia.
Qed.

Lemma weighted_sum_app (fo fe : ascii -> Z) (odd : bool) (l1 l2 : list ascii) :
  weighted_sum fo fe odd (l1 ++ l2) =
  (weighted_sum fo fe odd l1 + weighted_sum fo fe (parity_after odd l1) l2)%Z.
Proof.
  unfold parity_after. revert odd.
  induction l1 as [|c l1 IH]; intros odd; cbn [app weighted_sum length]; [simpl; lia|].
  rewrite IH, Nat.even_succ, <- Nat.negb_even.
  destruct (Nat.even (length l1)), odd; simpl; lia.
Qed.

(** Case analysis on a hypothesis [In c l] with [l] concrete. *)
Ltac In_cases H := simpl in H; repeat (destruct H as [<-|H]; [solve [repeat split]|]); destruct H.

(** The weighted sum of the code: odd-position table at odd positions. *)
Abbreviation check_sum := (weighted_sum odd_value even_value true).

(** ** Theorems *)

Lemma lastCode_eq (partialCode : string) :
  lastCode partialCode =
  str (ascii_of_nat (65 + Z.to_nat (check_sum (String.list_ascii_of_string partialCode) mod 26))).
Proof.
  unfold lastCode. rewrite partition_positions_deal.
  pose proof (weighted_sum_deal odd_value even_value true (String.list_ascii_of_string partialCode)).
  pose proof (weighted_sum_nonneg odd_value even_value true (String.list_ascii_of_string partialCode)).
  destruct (deal true _) as [o e]. unfold oddsCalculator, evensCalculator. simpl in *.
  rewrite !fold_left_add_zsum, Z.rem_mod_nonneg by lia.
  rewrite lastCodeCalculator_letter by (apply Z.mod_pos_bound; lia). 
  replace (0 + zsum odd_value o + (0 + zsum even_value e))%Z
    with (check_sum (String.list_ascii_of_string partialCode)) by lia.
  reflexivity.
Qed.

(** C3: equivalence.  [lastCode] (partition by position parity, two
    [forEach] sums, [%] 26, letter table) equals the positional
    definition: the letter [A]+k where k is the weighted sum of the
    characters (odd table at odd 1-based positions, even table at even
    positions) modulo 26. *)
Theorem lastCode_weighted_sum (partialCode : string) :
  lastCode partialCode =
  str (ascii_of_nat (65 + Z.to_nat (check_sum (String.list_ascii_of_string partialCode) mod 26))).
Proof. apply lastCode_eq. Qed.

Lemma lastCode_capital_letter (partialCode : string) :
  exists c, lastCode partialCode = str c /\ Js.is_capital c = true.
Proof.
  rewrite lastCode_eq. eexists. split; [reflexivity|]. apply capital_letter.
  pose proof (weighted_sum_nonneg odd_value even_value true (String.list_ascii_of_string partialCode)).
  pose proof (Z.mod_pos_bound (check_sum (String.list_ascii_of_string partialCode)) 26).
  lia.
Qed.

(** C15: type.  Whatever the input string (any length, any characters),
    [lastCode] returns exactly one capital letter [A]..[Z]. *)
Theorem lastCode_capital (partialCode : string) :
  exists c, lastCode partialCode = str c /\ Js.is_capital c = true.
Proof. apply lastCode_capital_letter. Qed.

(** C4: safety.  Replacing one character of the body by a different one
    of the same class (capital for capital, digit for digit), at any
    position, changes the check character. *)
Theorem lastCode_detects_substitution (pre post : list ascii) (x y : ascii) :
  same_class x y = true -> x <> y ->
  lastCode (String.string_of_list_ascii (pre ++ x :: post)) <>
  lastCode (String.string_of_list_ascii (pre ++ y :: post)).
Proof.
  intros Hc Hne E. rewrite !lastCode_eq, !String.list_ascii_of_string_of_list_ascii in E.
  apply letter_inj in E; [|apply Z.mod_pos_bound; lia..].
  exact (weighted_sum_substitution odd_value even_value true pre post x y Hc Hne E).
Qed.

Lemma lastCode_detects_substitution_witness :
  same_class "1" "7" = true /\ "1"%char <> "7"%char /\
  lastCode (String.string_of_list_ascii (String.list_ascii_of_string "RSSMRA80A01H50" ++ ["1"]%char)) <>
  lastCode (String.string_of_list_ascii (String.list_ascii_of_string "RSSMRA80A01H50" ++ ["7"]%char)).
Proof.
  assert (Hc : same_class "1" "7" = true) by reflexivity.
  assert (Hne : "1"%char <> "7"%char) by discriminate.
  split; [exact Hc|]. split; [exact Hne|].
  exact (lastCode_detects_substitution _ [] _ _ Hc Hne).
Defined.

(** C21: functional.  The structure of the two tables: the even-position
    table gives a capital its alphabet index and a digit its value; the
    digit [k] and the [k]-th letter ([0] and [A], ..., [9] and [J]) have the
    same value in both tables. *)
Theorem tables_structure (c : ascii) :
  (Js.is_capital c = true -> even_value c = (Z.of_nat (nat_of_ascii c) - 65)%Z) /\
  (Js.is_digit c = true ->
   even_value c = (Z.of_nat (nat_of_ascii c) - 48)%Z /\
   odd_value c = odd_value (ascii_of_nat (nat_of_ascii c + 17)) /\
   even_value c = even_value (ascii_of_nat (nat_of_ascii c + 17))).
Proof.
  split.
  - intros H%capital_In. In_cases H.
  - intros H%digit_In. In_cases H.
Qed.

Lemma tables_structure_witness :
  Js.is_capital "K" = true /\ even_value "K" = (Z.of_nat (nat_of_ascii "K") - 65)%Z.
Proof. split; [reflexivity|]. apply (proj1 (tables_structure "K")). reflexivity. Defined.

(** C27: functional.  An adjacent transposition of [W] and [Y] is never
    detected: both orders contribute 46 to the weighted sum at any
    position, so the check characters agree. *)
Theorem lastCode_WY_transposition (pre post : list ascii) :
  lastCode (String.string_of_list_ascii (pre ++ ["W"; "Y"]%char ++ post)) =
  lastCode (String.string_of_list_ascii (pre ++ ["Y"; "W"]%char ++ post)).
Proof.
  assert (E : forall p, weighted_sum odd_value even_value p ["W"; "Y"]%char =
                       weighted_sum odd_value even_value p ["Y"; "W"]%char) by (intros []; reflexivity).
  rewrite !lastCode_eq, !String.list_ascii_of_string_of_list_ascii, !weighted_sum_app, E.
  reflexivity.
Qed.

End CheckDigit.
