(* ===== verification/CityCode.v ===== *)
(** The municipality table and its clients: the data types of
    src/src/app/models/city.ts, the callback of [MainFormComponent.apiRequest]
    (main-form.component.ts, lines 30-44) that builds the display names,
    [cityCodeExtractor] (lines 189-191), [autoCompleteValidator]
    (src/src/app/validators/autocomplete-validator.ts) and [_filter]
    (lines 53-56).  The theorems: the lookup returns the code of the first
    entry with the given display name and fails only when there is none;
    the callback keeps [options] equal to the display names of [cityList];
    a city accepted by the validator is one the lookup resolves; the
    display name in every case of the province lookup; and the
    validator's result in closed form. *)

From stdpp Require Import base list strings sets.
From Stdlib Require Import ZArith Ascii Lia.
From S2P Require Import Prelude JsCore.

Module CityCode.

(** ** The model *)

(** [City] of city.ts. *)
Record City := mkCity { name : string; code : string }.

(** The fields of [CityResponse] the code reads (the others, [cap],
    [codice], [coordinate], [nomeStraniero] and [prefisso], are unused). *)
Record CityResponse := mkCityResponse {
  nome : string;
  provincia : string;
  codiceCatastale : string
}.

(** The fields of [DistrictResponse] the code reads ([nome] and [regione]
    are unused). *)
Record DistrictResponse := mkDistrictResponse { codice : string; sigla : string }.

(** A string-valued expression that may be [undefined], as it prints in a
    template literal or a [+] concatenation. *)
Definition js_string_of_option (o : option string) : string :=
  match o with Some s => s | None => "undefined" end.

(** [res2.find(item => item.codice === element.provincia)?.sigla] *)
Definition cityDistrict (res2 : list DistrictResponse) (element : CityResponse) : option string :=
  sigla <$> List.find (fun item => String.eqb (codice item) (provincia element)) res2.

(** [element.nome + ` (${cityDistrict})`] *)
Definition cityName (res2 : list DistrictResponse) (element : CityResponse) : string :=
  nome element ⊕ " (" ⊕ js_string_of_option (cityDistrict res2 element) ⊕ ")".

(** One iteration of [res.forEach]: push to [cityList] and to [options]. *)
Definition push_city (res2 : list DistrictResponse)
    (acc : list City * list string) (element : CityResponse) : list City * list string :=
  let '(cityList, options) := acc in
  let n := cityName res2 element in
  (cityList ++ [mkCity n (codiceCatastale element)], options ++ [n]).

(** The inner [subscribe] callback of [apiRequest]. *)
Definition apiRequest_callback (res : list CityResponse) (res2 : list DistrictResponse)
    (cityList : list City) (options : list string) : list City * list string :=
  fold_left (push_city res2) res (cityList, options).

Definition cityCodeExtractor (cityList : list City) (city : string) : option string :=
  code <$> List.find (fun element => String.eqb (name element) city) cityList.

(** [autoCompleteValidator(options)(control)]: [None] is [null] (valid),
    [Some e] the error object.  The [if] tests the truthiness of the
    element [find] returns, and the empty string is falsy. *)
Definition autoCompleteValidator (options : list string) (value : string) : option string :=
  match List.find (fun element => String.eqb element value) options with
  | Some element => if String.eqb element "" then Some "isNotOption" else None
  | None => Some "isNotOption"
  end.

Definition _filter (options : list string) (value : string) : list string :=
  let filterValue := Js.toLowerCase value in
  firstn 10 (List.filter (fun option => Js.includes (Js.toLowerCase option) filterValue) options).

(** ** Lemmas shared with the component *)

(** The callback appends, for every municipality in order, its entry and
    its display name. *)
Lemma apiRequest_callback_app (res : list CityResponse) (res2 : list DistrictResponse)
    (cityList : list City) (options : list string) :
  apiRequest_callback res res2 cityList options =
  (cityList ++ map (fun e => mkCity (cityName res2 e) (codiceCatastale e)) res,
   options ++ map (cityName res2) res).
Proof.
  unfold apiRequest_callback. revert cityList options.
  induction res as [|e res IH]; intros cityList options; simpl; [by rewrite !app_nil_r|].
  rewrite IH. by rewrite <- !app_assoc.
Qed.

(** An accepted city is a display name of the table with a non-empty
    value. *)
Lemma autoCompleteValidator_accepts (options : list string) (value : string) :
  autoCompleteValidator options value = None <-> value ∈ options /\ value <> "".
Proof.
  unfold autoCompleteValidator. split.
  - destruct (List.find _ options) as [n|] eqn:E; [|discriminate].
    apply find_some_first in E as (pre & post & Hl & Hn & _). apply String.eqb_eq in Hn as ->.
    destruct (String.eqb_spec value ""); [discriminate|]. rewrite Hl. set_solver.
  - intros [Hin Hne]. destruct (List.find _ options) as [n|] eqn:E.
    + apply find_some_first in E as (_ & _ & _ & Hn & _). apply String.eqb_eq in Hn as ->.
      by destruct (String.eqb_spec value "").
    + apply find_none_forall in E. rewrite Forall_forall in E.
      specialize (E _ Hin). simpl in E. by rewrite String.eqb_refl in E.
Qed.

Lemma cityCodeExtractor_found (cityList : list City) (value : string) :
  value ∈ map name cityList ->
  exists c, cityCodeExtractor cityList value = Some c /\ mkCity value c ∈ cityList.
Proof.
  intros Hin. unfold cityCodeExtractor.
  destruct (List.find _ cityList) as [e|] eqn:E.
  - apply find_some_first in E as (pre & post & -> & He & _). apply String.eqb_eq in He.
    exists (code e). split; [done|]. destruct e as [n c]; simpl in *; subst. set_solver.
  - apply find_none_forall in E. rewrite Forall_forall in E.
    apply list_elem_of_fmap in Hin as (e & -> & He).
    specialize (E _ He). simpl in E. by rewrite String.eqb_refl in E.
Qed.

(** The suggestions are at most ten elements of [options], in order. *)
Lemma _filter_sublist (options : list string) (value : string) :
  length (_filter options value) <= 10 /\ _filter options value `sublist_of` options.
Proof.
  unfold _filter. split; [rewrite length_firstn; lia|].
  etransitivity; [apply sublist_take|]. apply List_filter_sublist.
Qed.

(** An empty filter value keeps the first ten options. *)
Lemma _filter_empty (options : list string) : _filter options "" = firstn 10 options.
Proof.
  unfold _filter. f_equal. induction options as [|o options IH]; [done|].
  simpl. by rewrite Js.includes_empty, IH.
Qed.

(** ** Theorems *)

(** C18: functional.  [cityCodeExtractor] returns [c] exactly when some
    entry named [city] has code [c] and no earlier entry is named [city]:
    it is a first-match lookup. *)
Theorem cityCodeExtractor_first_match (cityList : list City) (city c : string) :
  cityCodeExtractor cityList city = Some c <->
  exists pre e post, cityList = pre ++ e :: post /\ name e = city /\ code e = c /\
                     Forall (fun e' => name e' <> city) pre.
Proof.
  unfold cityCodeExtractor. split.
  - destruct (List.find _ cityList) as [e|] eqn:E; [|discriminate]. intros [= <-].
    apply find_some_first in E as (pre & post & -> & He & Hpre).
    exists pre, e, post. apply String.eqb_eq in He. repeat split; [done..|].
    eapply Forall_impl; [exact Hpre|]. intros y Hy. by apply String.eqb_neq.
  - intros (pre & e & post & -> & He & <- & Hpre).
    assert (E : List.find (fun element => String.eqb (name element) city) (pre ++ e :: post) = Some e).
    { apply find_some_first. exists pre, post. split; [done|]. split; [by apply String.eqb_eq|].
      eapply Forall_impl; [exact Hpre|]. intros y Hy. by apply String.eqb_neq. }
    by rewrite E.
Qed.

(** C19: error.  The lookup fails exactly when no entry of the table has
    the display name (the name is compared as is, case included). *)
Theorem cityCodeExtractor_not_found (cityList : list City) (city : string) :
  cityCodeExtractor cityList city = None <-> city ∉ map name cityList.
Proof.
  unfold cityCodeExtractor. rewrite fmap_None, find_none_forall, list_elem_of_fmap.
  split.
  - intros Hall (e & -> & He). rewrite Forall_forall in Hall.
    specialize (Hall e He). simpl in Hall. by rewrite String.eqb_refl in Hall.
  - intros Hn. apply Forall_forall. intros e He. apply String.eqb_neq. intros <-. eauto.
Qed.

(** C20: functional.  The callback of [apiRequest] appends, for every
    municipality in order, the entry (display name, cadastral code) to
    [cityList] and the same display name to [options]. *)
Theorem apiRequest_callback_spec (res : list CityResponse) (res2 : list DistrictResponse)
    (cityList : list City) (options : list string) :
  apiRequest_callback res res2 cityList options =
  (cityList ++ map (fun e => mkCity (cityName res2 e) (codiceCatastale e)) res,
   options ++ map (cityName res2) res).
Proof. apply apiRequest_callback_app. Qed.

(** C13: safety.  When [options] holds the display names of [cityList],
    a city the validator accepts is resolved by [cityCodeExtractor], to the
    code of an entry of the table with that name. *)
Theorem autoCompleteValidator_resolvable (cityList : list City) (value : string) :
  autoCompleteValidator (map name cityList) value = None ->
  exists c, cityCodeExtractor cityList value = Some c /\ mkCity value c ∈ cityList.
Proof. intros [Hin _]%autoCompleteValidator_accepts. by apply cityCodeExtractor_found. Qed.

Lemma autoCompleteValidator_resolvable_witness :
  autoCompleteValidator (map name [mkCity "Roma (RM)" "H501"]) "Roma (RM)" = None /\
  exists c, cityCodeExtractor [mkCity "Roma (RM)" "H501"] "Roma (RM)" = Some c /\
            mkCity "Roma (RM)" c ∈ [mkCity "Roma (RM)" "H501"].
Proof.
  assert (H : autoCompleteValidator (map name [mkCity "Roma (RM)" "H501"]) "Roma (RM)" = None)
    by reflexivity.
  split; [exact H|]. exact (autoCompleteValidator_resolvable _ _ H).
Defined.

(** C32: functional.  The display name of a municipality is its name
    followed by the abbreviation of the first province whose code is its
    province code, in parentheses; when no province of the list has that
    code, the optional chaining yields [undefined] and the template
    literal prints it: the display name ends in " (undefined)" (the spec
    assumes every display name carries a province abbreviation). *)
Theorem cityName_spec (res2 : list DistrictResponse) (e : CityResponse) :
  (Forall (fun d => codice d <> provincia e) res2 -> cityName res2 e = nome e ⊕ " (undefined)") /\
  (forall pre d post, res2 = pre ++ d :: post -> codice d = provincia e ->
     Forall (fun d' => codice d' <> provincia e) pre ->
     cityName res2 e = nome e ⊕ " (" ⊕ sigla d ⊕ ")").
Proof.
  unfold cityName, cityDistrict. split.
  - intros Hn. assert (E : List.find (fun item => String.eqb (codice item) (provincia e)) res2 = None).
    { apply find_none_forall. eapply Forall_impl; [exact Hn|]. intros d Hd. by apply String.eqb_neq. }
    by rewrite E.
  - intros pre d post -> Hd Hpre.
    assert (E : List.find (fun item => String.eqb (codice item) (provincia e)) (pre ++ d :: post) = Some d).
    { apply find_some_first. exists pre, post. split; [done|]. split; [by apply String.eqb_eq|].
      eapply Forall_impl; [exact Hpre|]. intros y Hy. by apply String.eqb_neq. }
    by rewrite E.
Qed.

Lemma cityName_spec_witness :
  cityName [] (mkCityResponse "Roma" "058" "H501") = "Roma (undefined)".
Proof. exact (proj1 (cityName_spec [] (mkCityResponse "Roma" "058" "H501")) (Forall_nil_2 _)). Defined.

(** C29: bounds.  The autocomplete offers at most ten options, each one of
    [options] that contains the typed value, case ignored, in the order of
    [options]. *)
Theorem _filter_spec (options : list string) (value : string) :
  length (_filter options value) <= 10 /\
  _filter options value `sublist_of` options /\
  Forall (fun o => Js.includes (Js.toLowerCase o) (Js.toLowerCase value) = true)
         (_filter options value).
Proof.
  split; [apply _filter_sublist|]. split; [apply _filter_sublist|].
  unfold _filter. apply Forall_forall. intros o Ho%subseteq_take.
  apply list_elem_of_In, filter_In in Ho. tauto.
Qed.

(** C33: error.  The validator returns [null] exactly when the value is
    one of [options] and is not the empty string, and the error object
    [{ isNotOption: true }] otherwise: [find] returns the matching element
    and the [if] tests its truthiness, so the empty string is rejected
    even when it is one of [options]. *)
Theorem autoCompleteValidator_spec (options : list string) (value : string) :
  autoCompleteValidator options value =
  if bool_decide (value ∈ options /\ value <> "") then None else Some "isNotOption".
Proof.
  case_bool_decide as H.
  - by apply autoCompleteValidator_accepts.
  - destruct (autoCompleteValidator options value) as [err|] eqn:E.
    + revert E. unfold autoCompleteValidator.
      destruct (List.find _ options) as [n|]; [destruct (String.eqb n "")|]; congruence.
    + by apply autoCompleteValidator_accepts in E.
Qed.

End CityCode.
