(* ===== verification/CityApi.v ===== *)
(** The HTTP service [CityApiService] (src/src/app/api/city-api.service.ts):
    its two methods return the request that [HttpClient.get] issues when the
    component subscribes.  The transport itself is I/O and is not modelled:
    the responses reach the component as events of [MainForm]. *)

From stdpp Require Import base list strings.
From S2P Require Import Prelude.

Module CityApi.

(** An HTTP GET request, identified by its URL. *)
Inductive Request := HttpGet (url : string).

#[export] Instance Request_eq_dec : EqDecision Request.
Proof. solve_decision. Qed.

(** [getCityList()], lines 12-14. *)
Definition getCityList : Request := HttpGet "https://comuni-ita.herokuapp.com/api/comuni".

(** [getDitrictList()], lines 16-18. *)
Definition getDitrictList : Request := HttpGet "https://comuni-ita.herokuapp.com/api/province".

Lemma getCityList_getDitrictList : getCityList <> getDitrictList.
Proof. discriminate. Qed.

End CityApi.
