(* ===== verification/MainForm.v ===== *)
(** The component [MainFormComponent] as a state machine
    (src/src/app/views/main-form/main-form.component.ts): its state
    ([cityList], [options], the form value, [fiscalCode], the suggestions
    emitted by [filteredOptions]) with the open subscription of
    [apiRequest] and the log of HTTP requests issued; the lifecycle
    ([ngOnInit], [apiRequest], [formConstruction], [matAutocompleteStart]);
    the two response callbacks of [apiRequest]; the composer [getForm]; and
    the events (responses, user input, submission) as a step relation from
    the state after [ngOnInit].  The theorems: the request protocol (the
    province list is requested only after the municipalities arrive, each
    once, and the table stays empty until both have arrived); [options] is
    the list of display names of [cityList]; no form is valid before the
    table is loaded; the suggestions are at most ten options; a valid
    submission stores a 16-character code; an unknown city gives
    "undefined"; loading always completes and a code can always be
    computed from a loaded table; a second submission changes nothing. *)

From stdpp Require Import base list strings relations sets.
From Stdlib Require Import ZArith Ascii Lia.
From S2P Require Import Prelude JsCore NameEncoder DateSexEncoder CheckDigit CityCode CityApi.

Module MainForm.

Import DateSexEncoder.

(** ** The model *)

(** The value of the form group: the five controls of [formConstruction].
    An unselected [sex] or [date] control holds [''], modelled as [None]. *)
Record FormValue := mkFormValue {
  surname : string;
  name : string;
  sex : option Sex;
  date : option Date;
  city : string
}.

(** The open subscription of [apiRequest]: waiting for the municipalities
    (line 32), for the provinces with the municipalities at hand (line 34),
    or none. *)
Inductive Pending :=
  | AwaitCities
  | AwaitDistricts (res : list CityCode.CityResponse)
  | NoPending.

(** The fields of the component ([filteredOptions] as the last list it
    emitted), with the open subscription and the HTTP requests issued. *)
Record State := mkState {
  cityList : list CityCode.City;
  options : list string;
  form : FormValue;
  fiscalCode : string;
  suggestions : list string;
  pending : Pending;
  requests : list CityApi.Request
}.

Definition empty_form : FormValue := mkFormValue "" "" None None "".

(** Field updates. *)
Definition set_form (v : FormValue) (st : State) : State :=
  mkState (cityList st) (options st) v (fiscalCode st) (suggestions st) (pending st) (requests st).
Definition set_fiscalCode (c : string) (st : State) : State :=
  mkState (cityList st) (options st) (form st) c (suggestions st) (pending st) (requests st).
Definition set_suggestions (l : list string) (st : State) : State :=
  mkState (cityList st) (options st) (form st) (fiscalCode st) l (pending st) (requests st).

(** The object after the constructor: the field initialisers of lines
    16-20 ([form] is assigned only by [formConstruction]). *)
Definition constructed : State := mkState [] [] empty_form "" [] NoPending [].

(** [apiRequest] (lines 30-31): subscribe to [getCityList()]. *)
Definition apiRequest (st : State) : State :=
  mkState (cityList st) (options st) (form st) (fiscalCode st) (suggestions st)
    AwaitCities (requests st ++ [CityApi.getCityList]).

(** The first callback (lines 32-33): subscribe to [getDitrictList()]. *)
Definition onCities (st : State) (res : list CityCode.CityResponse) : State :=
  mkState (cityList st) (options st) (form st) (fiscalCode st) (suggestions st)
    (AwaitDistricts res) (requests st ++ [CityApi.getDitrictList]).

(** The second callback (lines 34-41): push every entry into the
    component's [cityList] and [options] arrays. *)
Definition onDistricts (st : State) (res : list CityCode.CityResponse)
    (res2 : list CityCode.DistrictResponse) : State :=
  let '(cl, op) := CityCode.apiRequest_callback res res2 (cityList st) (options st) in
  mkState cl op (form st) (fiscalCode st) (suggestions st) NoPending (requests st).

(** [formConstruction] (lines 58-66): every control starts as [''] (the
    validators are [form_valid]). *)
Definition formConstruction (st : State) : State := set_form empty_form st.

(** One emission of [filteredOptions] (lines 47-50): [_filter] of the
    control's value against the current [options] array. *)
Definition filterEmission (st : State) (value : string) : State :=
  set_suggestions (CityCode._filter (options st) value) st.

(** [matAutocompleteStart] (lines 46-51): [startWith('')] emits once. *)
Definition matAutocompleteStart (st : State) : State := filterEmission st "".

(** [ngOnInit] (lines 24-28). *)
Definition ngOnInit (st : State) : State :=
  matAutocompleteStart (formConstruction (apiRequest st)).

Definition init : State := ngOnInit constructed.

(** [Validators.required] and [Validators.minLength(n)] on a string. *)
Definition required (value : string) : bool := negb (String.eqb value "").

Definition minLength (n : nat) (value : string) : bool :=
  String.eqb value "" || (n <=? String.length value).

(** The form group is valid when every control is: the composition of
    lines 60-64, the city validator reading the current [options] array
    (the validator closes over [this.options], which the loader fills
    later). *)
Definition form_valid (options : list string) (v : FormValue) : bool :=
  required (surname v) && minLength 3 (surname v) &&
  required (name v) && minLength 3 (name v) &&
  bool_decide (is_Some (sex v)) && bool_decide (is_Some (date v)) &&
  required (city v) &&
  bool_decide (CityCode.autoCompleteValidator options (city v) = None).

(** [sex === 'female'] in [dateAndSexExtractor]: an empty control takes
    the male branch. *)
Definition sex_argument (s : option Sex) : Sex :=
  match s with Some female => female | _ => male end.

(** [getForm]; [None] when it throws: with an empty date control
    [userDetail.date] is [undefined] and [date.getFullYear()] raises a
    [TypeError] before [fiscalCode] is assigned. *)
Definition getForm (st : State) : option State :=
  let userDetail := form st in
  match date userDetail with
  | None => None
  | Some d =>
      let result :=
        NameEncoder.nameExtractor (surname userDetail) false ⊕
        NameEncoder.nameExtractor (name userDetail) true ⊕
        dateAndSexExtractor d (sex_argument (sex userDetail)) ⊕
        CityCode.js_string_of_option
          (CityCode.cityCodeExtractor (cityList st) (city userDetail)) in
      let lastCharacter := CheckDigit.lastCode result in
      Some (set_fiscalCode (result ⊕ lastCharacter) st)
  end.

(** What can happen to the component after [ngOnInit]: an HTTP response,
    an edit of the form by the user, a submission. *)
Inductive event :=
  | CitiesResponse (res : list CityCode.CityResponse)
  | DistrictsResponse (res2 : list CityCode.DistrictResponse)
  | Input (v : FormValue)
  | Submit.

(** A response is delivered to the subscription waiting for it, and is
    otherwise not possible; an edit of the city control makes
    [valueChanges] emit. *)
Definition handle (st : State) (ev : event) : State :=
  match ev with
  | CitiesResponse res =>
      match pending st with AwaitCities => onCities st res | _ => st end
  | DistrictsResponse res2 =>
      match pending st with AwaitDistricts res => onDistricts st res res2 | _ => st end
  | Input v =>
      if String.eqb (city v) (city (form st)) then set_form v st
      else filterEmission (set_form v st) (city v)
  | Submit => match getForm st with Some st' => st' | None => st end
  end.

Inductive step : relation State :=
  | step_handle st ev : step st (handle st ev).

Definition reachable (st : State) : Prop := rtc step init st.

(** The body of the code for a state whose date control is filled. *)
Definition body (st : State) (d : Date) (c : string) : string :=
  NameEncoder.nameExtractor (surname (form st)) false ⊕
  NameEncoder.nameExtractor (name (form st)) true ⊕
  dateAndSexExtractor d (sex_argument (sex (form st))) ⊕ c.

(** The table an answered pair of requests loads. *)
Definition loaded_table (res : list CityCode.CityResponse) (res2 : list CityCode.DistrictResponse)
    : list CityCode.City :=
  map (fun e => CityCode.mkCity (CityCode.cityName res2 e) (CityCode.codiceCatastale e)) res.

(** ** Invariants *)

Definition options_inv (st : State) : Prop := options st = map CityCode.name (cityList st).

(** The request protocol: which requests have been issued, and the table
    is empty until the second response. *)
Definition load_inv (st : State) : Prop :=
  match pending st with
  | AwaitCities => requests st = [CityApi.getCityList] /\ cityList st = [] /\ options st = []
  | AwaitDistricts _ =>
      requests st = [CityApi.getCityList; CityApi.getDitrictList] /\
      cityList st = [] /\ options st = []
  | NoPending => requests st = [CityApi.getCityList; CityApi.getDitrictList]
  end.

Definition suggestions_inv (st : State) : Prop :=
  suggestions st `sublist_of` options st /\ length (suggestions st) <= 10.

Lemma getForm_fields (st st' : State) :
  getForm st = Some st' ->
  cityList st' = cityList st /\ options st' = options st /\ form st' = form st /\
  suggestions st' = suggestions st /\ pending st' = pending st /\ requests st' = requests st.
Proof. unfold getForm. destruct (date (form st)); [intros [= <-]; auto 10|discriminate]. Qed.

Lemma onDistricts_eq (st : State) res res2 :
  onDistricts st res res2 =
  mkState (cityList st ++ loaded_table res res2) (options st ++ map (CityCode.cityName res2) res)
    (form st) (fiscalCode st) (suggestions st) NoPending (requests st).
Proof. unfold onDistricts. by rewrite CityCode.apiRequest_callback_app. Qed.

(** A view of [handle]: the state an event leads to is one of these. *)
Inductive handle_spec (st : State) : State -> Prop :=
  | hs_same : handle_spec st st
  | hs_cities res : pending st = AwaitCities -> handle_spec st (onCities st res)
  | hs_districts res res2 :
      pending st = AwaitDistricts res -> handle_spec st (onDistricts st res res2)
  | hs_input v : handle_spec st (set_form v st)
  | hs_filter v : handle_spec st (filterEmission (set_form v st) (city v))
  | hs_submit st' : getForm st = Some st' -> handle_spec st st'.

Lemma handle_specP (st : State) (ev : event) : handle_spec st (handle st ev).
Proof.
  destruct ev as [res|res2|v|]; simpl.
  - destruct (pending st) eqn:Hp; [by constructor|constructor..].
  - destruct (pending st) eqn:Hp; [constructor|by constructor|constructor].
  - destruct (String.eqb _ _); constructor.
  - destruct (getForm st) eqn:E; by constructor.
Qed.

(** Prove a property of [handle st ev] through the view, with the fields
    [getForm] leaves unchanged. *)
Ltac handle_view st ev :=
  destruct (handle_specP st ev) as [|? Hp|? ? Hp|?|?|? Hg];
  [ | | unfold onDistricts; rewrite CityCode.apiRequest_callback_app | | |
    apply getForm_fields in Hg;
    repeat match goal with H : ?f ?x = ?f st /\ _ |- _ => destruct H as [H ?] end;
    repeat match goal with H : ?f ?x = ?f st |- _ => rewrite H; clear H end ].

Lemma handle_options_inv (st : State) (ev : event) : options_inv st -> options_inv (handle st ev).
Proof.
  unfold options_inv. intros Hinv. handle_view st ev; simpl; try congruence.
  rewrite Hinv, map_app. unfold loaded_table. by rewrite map_map.
Qed.

Lemma handle_load_inv (st : State) (ev : event) : load_inv st -> load_inv (handle st ev).
Proof.
  unfold load_inv. intros Hinv. handle_view st ev; simpl; try done.
  - rewrite Hp in Hinv. destruct Hinv as (-> & ? & ?). auto.
  - rewrite Hp in Hinv. by destruct Hinv.
Qed.

Lemma handle_suggestions_inv (st : State) (ev : event) :
  suggestions_inv st -> suggestions_inv (handle st ev).
Proof.
  unfold suggestions_inv. intros [Hs Hl]. handle_view st ev; simpl; try (split; congruence).
  - split; [|done]. by apply sublist_inserts_r.
  - by destruct (CityCode._filter_sublist (options st) (city v)).
Qed.

Lemma reachable_handle (st : State) (ev : event) : reachable st -> reachable (handle st ev).
Proof. intros H. eapply rtc_r; [exact H|constructor]. Qed.

(** A property every event preserves and [init] has holds everywhere. *)
Lemma reachable_ind (P : State -> Prop) :
  P init -> (forall st ev, P st -> P (handle st ev)) -> forall st, reachable st -> P st.
Proof.
  intros Hinit Hstep st Hr. refine (rtc_invariant step P _ init st Hinit Hr).
  intros x y Hx Hs. inversion Hs; subst. by apply Hstep.
Qed.

(** [getForm] reads the form and the table only, and writes [fiscalCode]
    only. *)
Lemma getForm_idem (st st' : State) : getForm st = Some st' -> getForm st' = Some st'.
Proof.
  unfold getForm. destruct (date (form st)) eqn:Hd; [|discriminate]. intros [= <-].
  cbn [form cityList set_fiscalCode]. by rewrite Hd.
Qed.

Lemma getForm_some (st : State) (d : Date) :
  date (form st) = Some d ->
  getForm st = Some (set_fiscalCode
    (body st d (CityCode.js_string_of_option
                  (CityCode.cityCodeExtractor (cityList st) (city (form st)))) ⊕
     CheckDigit.lastCode (body st d (CityCode.js_string_of_option
                  (CityCode.cityCodeExtractor (cityList st) (city (form st)))))) st).
Proof. intros Hd. unfold getForm, body. by rewrite Hd, !string_append_assoc. Qed.

Lemma form_valid_parts (options : list string) (v : FormValue) :
  form_valid options v = true ->
  is_Some (date v) /\ CityCode.autoCompleteValidator options (city v) = None.
Proof.
  unfold form_valid. intros H. repeat (apply andb_true_iff in H as [H ?]).
  split; by eapply bool_decide_eq_true_1.
Qed.


Lemma body_length (st : State) (d : Date) (c : string) :
  valid_date d -> String.length (body st d c) = 11 + String.length c.
Proof.
  intros Hd. unfold body. rewrite !string_length_append, !NameEncoder.nameExtractor_len,
    dateAndSexExtractor_len by done. lia.
Qed.

(** ** A scenario: the example of the spec *)

Definition roma_response : CityCode.CityResponse := CityCode.mkCityResponse "Roma" "058" "H501".
Definition rm_district : CityCode.DistrictResponse := CityCode.mkDistrictResponse "058" "RM".
Definition rossi_form : FormValue :=
  mkFormValue "Rossi" "Mario" (Some male) (Some (mkDate 1980 2 12)) "Roma (RM)".

(** [ngOnInit], the two responses. *)
Definition loaded_state : State :=
  handle (handle init (CitiesResponse [roma_response])) (DistrictsResponse [rm_district]).

(** Then the user's input. *)
Definition rossi_state : State := handle loaded_state (Input rossi_form).

Lemma rossi_state_reachable : reachable rossi_state.
Proof. unfold rossi_state, loaded_state. do 3 apply reachable_handle. constructor. Qed.

(** ** Lemmas on reachable states *)

Lemma reachable_options (st : State) : reachable st -> options_inv st.
Proof. apply reachable_ind; [done|apply handle_options_inv]. Qed.

Lemma reachable_load (st : State) : reachable st -> load_inv st.
Proof. apply reachable_ind; [done|apply handle_load_inv]. Qed.

Lemma reachable_suggestions (st : State) : reachable st -> suggestions_inv st.
Proof. apply reachable_ind; [split; simpl; [constructor|lia]|apply handle_suggestions_inv]. Qed.

(** Submitting a valid form whose [options] are the display names of the
    table. *)
Lemma submit_resolves (st : State) :
  options_inv st -> form_valid (options st) (form st) = true ->
  exists d c, date (form st) = Some d /\ CityCode.mkCity (city (form st)) c ∈ cityList st /\
    fiscalCode (handle st Submit) = body st d c ⊕ CheckDigit.lastCode (body st d c).
Proof.
  intros Hinv Hv. apply form_valid_parts in Hv as [[d Hd] Hc].
  rewrite Hinv in Hc. apply CityCode.autoCompleteValidator_accepts in Hc as [Hin _].
  apply CityCode.cityCodeExtractor_found in Hin as (c & Hc & Hin).
  exists d, c. split; [done|]. split; [done|].
  simpl. by rewrite (getForm_some st d Hd), Hc.
Qed.

Lemma submit_length (st : State) (d : Date) :
  options_inv st -> form_valid (options st) (form st) = true ->
  date (form st) = Some d -> valid_date d ->
  Forall (fun e => String.length (CityCode.code e) = 4) (cityList st) ->
  String.length (fiscalCode (handle st Submit)) = 16 /\
  exists b k, fiscalCode (handle st Submit) = b ⊕ str k /\ String.length b = 15 /\
              CheckDigit.lastCode b = str k /\ Js.is_capital k = true.
Proof.
  intros Hinv Hv Hd Hdate Hcodes.
  destruct (submit_resolves st Hinv Hv) as (d' & c & Hd' & Hin & ->).
  rewrite Hd in Hd'. injection Hd' as <-.
  rewrite Forall_forall in Hcodes. specialize (Hcodes _ Hin). simpl in Hcodes.
  destruct (CheckDigit.lastCode_capital_letter (body st d c)) as (k & Hk & Hcap).
  rewrite Hk, string_length_append, body_length by done. split; [simpl; lia|].
  exists (body st d c), k. rewrite body_length by done. auto with lia.
Qed.

(** The two responses delivered to a component waiting for the
    municipalities. *)
Lemma load_steps (st : State) res res2 :
  pending st = AwaitCities ->
  handle (handle st (CitiesResponse res)) (DistrictsResponse res2) =
  mkState (cityList st ++ loaded_table res res2) (options st ++ map (CityCode.cityName res2) res)
    (form st) (fiscalCode st) (suggestions st) NoPending (requests st ++ [CityApi.getDitrictList]).
Proof. intros Hp. simpl. rewrite Hp. simpl. apply onDistricts_eq. Qed.

Lemma rtc_step_handle2 (st : State) (e1 e2 : event) : rtc step st (handle (handle st e1) e2).
Proof. eapply rtc_l; [constructor|]. eapply rtc_l; [constructor|]. constructor. Qed.

Lemma handle_input_fields (st : State) (v : FormValue) :
  cityList (handle st (Input v)) = cityList st /\ options (handle st (Input v)) = options st /\
  form (handle st (Input v)) = v /\ pending (handle st (Input v)) = pending st.
Proof. simpl. by destruct (String.eqb _ _). Qed.

Lemma handle_submit_form (st : State) : form (handle st Submit) = form st.
Proof.
  cbn [handle]. destruct (getForm st) as [st'|] eqn:E; [|done].
  by apply getForm_fields in E as (_ & _ & -> & _).
Qed.

(** An empty [options] array accepts no city. *)
Lemma form_valid_no_options (v : FormValue) : form_valid [] v = false.
Proof.
  destruct (form_valid [] v) eqn:E; [|done].
  apply form_valid_parts in E as [_ E]. discriminate.
Qed.

(** ** Theorems *)

(** C9: invariant.  In every state reachable from [ngOnInit] by HTTP
    responses, inputs and submissions: [options] is exactly the list of
    display names of [cityList], in order; the requests issued follow the
    protocol of [apiRequest] (the municipalities first, the provinces only
    once they have arrived, each request once) and the table is empty
    until both responses have arrived; and the suggestions are at most ten
    elements of [options], in order. *)
Theorem reachable_invariants (st : State) :
  reachable st -> options_inv st /\ load_inv st /\ suggestions_inv st.
Proof.
  intros Hr. split; [by apply reachable_options|].
  split; [by apply reachable_load|by apply reachable_suggestions].
Qed.

(** C1: safety.  Submitting a valid form in a reachable state resolves
    the city: the code stored is the body (surname skeleton, name skeleton,
    date token, the code of a table entry with the chosen display name)
    followed by its check character. *)
Theorem submit_valid_form (st : State) :
  reachable st -> form_valid (options st) (form st) = true ->
  exists d c, date (form st) = Some d /\ CityCode.mkCity (city (form st)) c ∈ cityList st /\
    fiscalCode (handle st Submit) = body st d c ⊕ CheckDigit.lastCode (body st d c).
Proof. intros Hr. apply submit_resolves. by apply reachable_options. Qed.

Lemma reachable_invariants_witness :
  reachable rossi_state /\
  (options_inv rossi_state /\ load_inv rossi_state /\ suggestions_inv rossi_state).
Proof.
  split; [exact rossi_state_reachable|]. exact (reachable_invariants _ rossi_state_reachable).
Defined.

Lemma submit_valid_form_witness :
  reachable rossi_state /\ form_valid (options rossi_state) (form rossi_state) = true /\
  exists d c, date (form rossi_state) = Some d /\
    CityCode.mkCity (city (form rossi_state)) c ∈ cityList rossi_state /\
    fiscalCode (handle rossi_state Submit) =
    body rossi_state d c ⊕ CheckDigit.lastCode (body rossi_state d c).
Proof.
  assert (Hv : form_valid (options rossi_state) (form rossi_state) = true) by (vm_compute; reflexivity).
  split; [exact rossi_state_reachable|]. split; [exact Hv|].
  exact (submit_valid_form _ rossi_state_reachable Hv).
Defined.

(** C2: bounds.  In a reachable state, submitting a valid form with a
    valid date when every cadastral code of the table has four characters
    stores a code of exactly sixteen characters: a fifteen-character body
    followed by its check character, a capital letter. *)
Theorem submit_length_16 (st : State) (d : Date) :
  reachable st -> form_valid (options st) (form st) = true ->
  date (form st) = Some d -> valid_date d ->
  Forall (fun e => String.length (CityCode.code e) = 4) (cityList st) ->
  String.length (fiscalCode (handle st Submit)) = 16 /\
  exists b k, fiscalCode (handle st Submit) = b ⊕ str k /\ String.length b = 15 /\
              CheckDigit.lastCode b = str k /\ Js.is_capital k = true.
Proof. intros Hr. apply submit_length. by apply reachable_options. Qed.

Lemma submit_length_16_witness :
  reachable rossi_state /\ form_valid (options rossi_state) (form rossi_state) = true /\
  date (form rossi_state) = Some (mkDate 1980 2 12) /\ valid_date (mkDate 1980 2 12) /\
  Forall (fun e => String.length (CityCode.code e) = 4) (cityList rossi_state) /\
  (String.length (fiscalCode (handle rossi_state Submit)) = 16 /\
   exists b k, fiscalCode (handle rossi_state Submit) = b ⊕ str k /\ String.length b = 15 /\
               CheckDigit.lastCode b = str k /\ Js.is_capital k = true).
Proof.
  assert (Hv : form_valid (options rossi_state) (form rossi_state) = true) by (vm_compute; reflexivity).
  assert (Hd : date (form rossi_state) = Some (mkDate 1980 2 12)) by reflexivity.
  assert (Hdate : valid_date (mkDate 1980 2 12)) by (unfold valid_date; simpl; lia).
  assert (Hc : Forall (fun e => String.length (CityCode.code e) = 4) (cityList rossi_state))
    by (vm_compute; repeat constructor).
  repeat (split; [assumption || exact rossi_state_reachable|]).
  exact (submit_length_16 _ _ rossi_state_reachable Hv Hd Hdate Hc).
Defined.

(** C14: error.  When the city is not in the table, [getForm] does not
    fail: [cityCodeExtractor] returns [undefined], which the concatenation
    turns into the nine characters "undefined"; the stored code is this
    twenty-character body and its check character, 21 characters for a
    valid date (the spec asks for a distinct "city not found" failure). *)
Theorem submit_unknown_city (st : State) (d : Date) :
  date (form st) = Some d -> valid_date d ->
  CityCode.cityCodeExtractor (cityList st) (city (form st)) = None ->
  fiscalCode (handle st Submit) =
    body st d "undefined" ⊕ CheckDigit.lastCode (body st d "undefined") /\
  String.length (fiscalCode (handle st Submit)) = 21.
Proof.
  intros Hd Hdate Hc. simpl. rewrite (getForm_some st d Hd), Hc. simpl. split; [done|].
  destruct (CheckDigit.lastCode_capital_letter (body st d "undefined")) as (k & -> & _).
  rewrite string_length_append, body_length by done. reflexivity.
Qed.

Lemma submit_unknown_city_witness :
  date (form (handle init (Input rossi_form))) = Some (mkDate 1980 2 12) /\
  valid_date (mkDate 1980 2 12) /\
  CityCode.cityCodeExtractor (cityList (handle init (Input rossi_form)))
    (city (form (handle init (Input rossi_form)))) = None /\
  (fiscalCode (handle (handle init (Input rossi_form)) Submit) =
     body (handle init (Input rossi_form)) (mkDate 1980 2 12) "undefined" ⊕
     CheckDigit.lastCode (body (handle init (Input rossi_form)) (mkDate 1980 2 12) "undefined") /\
   String.length (fiscalCode (handle (handle init (Input rossi_form)) Submit)) = 21).
Proof.
  assert (Hd : date (form (handle init (Input rossi_form))) = Some (mkDate 1980 2 12)) by reflexivity.
  assert (Hdate : valid_date (mkDate 1980 2 12)) by (unfold valid_date; simpl; lia).
  assert (Hc : CityCode.cityCodeExtractor (cityList (handle init (Input rossi_form)))
                 (city (form (handle init (Input rossi_form)))) = None) by reflexivity.
  split; [exact Hd|]. split; [exact Hdate|]. split; [exact Hc|].
  exact (submit_unknown_city _ _ Hd Hdate Hc).
Defined.

(** C28: functional.  Submitting twice in a row stores the same code as
    submitting once: [getForm] reads only the form and the table, which it
    leaves unchanged. *)
Theorem submit_idempotent (st : State) :
  handle (handle st Submit) Submit = handle st Submit.
Proof.
  cbn [handle]. destruct (getForm st) as [st'|] eqn:E; [|by rewrite E].
  by rewrite (getForm_idem st st' E).
Qed.

(** The end-to-end example of the spec: after the table
    is loaded with Roma (code H501, province RM) and the user enters Rossi,
    Mario, male, 12 March 1980 (month index 2) and "Roma (RM)", the
    submission stores RSSMRA80C12H501 followed by the check letter E. *)
Example rossi_fiscal_code : fiscalCode (handle rossi_state Submit) = "RSSMRA80C12H501E".
Proof. vm_compute. reflexivity. Qed.

(** C12: safety.  Until both responses have arrived no form value is
    valid, whatever the user has typed: while a request is open the
    validator of the city control reads an empty [options] array. *)
Theorem loading_form_invalid (st : State) (v : FormValue) :
  reachable st -> pending st <> NoPending -> form_valid (options st) v = false.
Proof.
  intros Hr Hp. pose proof (reachable_load st Hr) as Hl. unfold load_inv in Hl.
  destruct (pending st); [destruct Hl as (_ & _ & ->)|destruct Hl as (_ & _ & ->)|done];
    apply form_valid_no_options.
Qed.

Lemma loading_form_invalid_witness :
  reachable init /\ pending init <> NoPending /\ form_valid (options init) rossi_form = false.
Proof.
  assert (Hp : pending init <> NoPending) by discriminate.
  split; [constructor|]. split; [exact Hp|].
  exact (loading_form_invalid init rossi_form (rtc_refl _ _) Hp).
Defined.

(** C11: liveness.  Loading completes: from a reachable state waiting for
    the municipalities, whatever the two responses are, delivering them
    leads to a state with no open request, having issued both requests,
    whose table and [options] hold exactly the entries of the responses. *)
Theorem load_completes (st : State) res res2 :
  reachable st -> pending st = AwaitCities ->
  exists st', rtc step st st' /\ pending st' = NoPending /\
    requests st' = [CityApi.getCityList; CityApi.getDitrictList] /\
    cityList st' = loaded_table res res2 /\ options st' = map (CityCode.cityName res2) res.
Proof.
  intros Hr Hp. pose proof (reachable_load st Hr) as Hl. unfold load_inv in Hl.
  rewrite Hp in Hl. destruct Hl as (Hq & Hc & Ho).
  exists (handle (handle st (CitiesResponse res)) (DistrictsResponse res2)).
  split; [apply rtc_step_handle2|]. rewrite load_steps by done. simpl.
  by rewrite Hq, Hc, Ho.
Qed.

Lemma load_completes_witness :
  reachable init /\ pending init = AwaitCities /\
  exists st', rtc step init st' /\ pending st' = NoPending /\
    requests st' = [CityApi.getCityList; CityApi.getDitrictList] /\
    cityList st' = loaded_table [roma_response] [rm_district] /\
    options st' = map (CityCode.cityName [rm_district]) [roma_response].
Proof.
  assert (Hp : pending init = AwaitCities) by reflexivity.
  split; [constructor|]. split; [exact Hp|].
  exact (load_completes init [roma_response] [rm_district] (rtc_refl _ _) Hp).
Defined.

(** C10: liveness.  A fiscal code can always be computed: for any pair of
    responses whose cadastral codes have four characters and any form
    value the form accepts against the options they give, with a valid
    date, the component can reach, from [ngOnInit], a state showing that
    form and a sixteen-character code. *)
Theorem fiscal_code_computable res res2 (v : FormValue) (d : Date) :
  form_valid (map (CityCode.cityName res2) res) v = true -> date v = Some d -> valid_date d ->
  Forall (fun e => String.length (CityCode.codiceCatastale e) = 4) res ->
  exists st', reachable st' /\ form st' = v /\ String.length (fiscalCode st') = 16.
Proof.
  intros Hv Hd Hdate Hcodes.
  set (st1 := handle (handle init (CitiesResponse res)) (DistrictsResponse res2)).
  assert (Hr1 : reachable st1) by (do 2 apply reachable_handle; constructor).
  set (st2 := handle st1 (Input v)).
  assert (Hr2 : reachable st2) by (by apply reachable_handle).
  pose proof (handle_input_fields st1 v) as (Hc & Ho & Hf & _).
  pose proof (load_steps init res res2 eq_refl) as Hs1.
  exists (handle st2 Submit). split; [by apply reachable_handle|].
  rewrite handle_submit_form. split; [exact Hf|].
  apply (submit_length st2 d); [by apply reachable_options|..].
  - unfold st2. rewrite Ho, Hf. subst st1. by rewrite Hs1.
  - unfold st2. by rewrite Hf.
  - done.
  - unfold st2. rewrite Hc. subst st1. rewrite Hs1. simpl. unfold loaded_table.
    rewrite Forall_fmap. eapply Forall_impl; [exact Hcodes|]. done.
Qed.

Lemma fiscal_code_computable_witness :
  form_valid (map (CityCode.cityName [rm_district]) [roma_response]) rossi_form = true /\
  date rossi_form = Some (mkDate 1980 2 12) /\ valid_date (mkDate 1980 2 12) /\
  Forall (fun e => String.length (CityCode.codiceCatastale e) = 4) [roma_response] /\
  exists st', reachable st' /\ form st' = rossi_form /\ String.length (fiscalCode st') = 16.
Proof.
  assert (Hv : form_valid (map (CityCode.cityName [rm_district]) [roma_response]) rossi_form = true)
    by (vm_compute; reflexivity).
  assert (Hd : date rossi_form = Some (mkDate 1980 2 12)) by reflexivity.
  assert (Hdate : valid_date (mkDate 1980 2 12)) by (unfold valid_date; simpl; lia).
  assert (Hc : Forall (fun e => String.length (CityCode.codiceCatastale e) = 4) [roma_response])
    by (repeat constructor).
  repeat (split; [assumption|]).
  exact (fiscal_code_computable _ _ _ _ Hv Hd Hdate Hc).
Defined.

(** C34: error.  The suggestions are computed once by [startWith('')],
    while [options] is still empty, and again only when the city control
    changes: whatever the two responses hold, after [ngOnInit] and both
    responses the dropdown offers nothing, although the empty filter
    would offer the first ten loaded options. *)
Theorem suggestions_empty_after_load res res2 :
  suggestions (handle (handle init (CitiesResponse res)) (DistrictsResponse res2)) = [] /\
  options (handle (handle init (CitiesResponse res)) (DistrictsResponse res2)) =
    map (CityCode.cityName res2) res /\
  CityCode._filter (options (handle (handle init (CitiesResponse res)) (DistrictsResponse res2))) "" =
    firstn 10 (map (CityCode.cityName res2) res).
Proof.
  rewrite load_steps by done. split; [reflexivity|]. split; [reflexivity|].
  rewrite CityCode._filter_empty. reflexivity.
Qed.

End MainForm.
